(** * PyGeodesy [utmups]: UTM/UPS range tables, dispatch and validation

    A shallow embedding of [pygeodesy/utmups.py] (version 20.07.08):
    the range tables [_UpsMinMax] and [_UtmMinMax], the validators
    [utmupsValidate] and [utmupsValidateOK], the classifier
    [utmupsZoneBand5], the parser facade [parseUTMUPS5] and the
    class-like function [UtmUps].

    Python values are a small inductive type, exceptions are records
    tagged with their class, and a function that can raise returns a
    [result].  The functions of [pygeodesy.utm], [pygeodesy.ups],
    [pygeodesy.utmupsBase] and [pygeodesy.errors] that [utmups.py]
    calls are not part of the sources at hand: they are Section
    variables, so that every theorem holds for any implementation of
    them, and concrete models are given further down to run the
    definitions on examples. *)

From Stdlib Require Import ZArith QArith Qround String List Lia Lqa Bool Ascii DecimalString.
Import ListNotations.

Local Open Scope string_scope.
Local Open Scope Z_scope.

(** ** Python values *)

(** A Python [float]: a finite value (kept exact, as a rational),
    an infinity or a NaN. *)
Inductive pyfloat : Type :=
| Fin (q : Q)
| PosInf
| NegInf
| NaN.

(** The scalars that occur as fields of a coordinate. *)
Inductive pyval : Type :=
| PyNone
| PyInt (z : Z)
| PyFloat (x : pyfloat)
| PyStr (s : string).

(** Instances of [Utm] and [Ups] have the attributes read by
    [utmupsValidate]. *)
Module Obj.
Record t : Type := Make {
  zone : pyval;
  hemisphere : pyval;
  easting : pyval;
  northing : pyval;
  band : pyval;
  falsed : bool;
  datum : pyval
}.
End Obj.

(** [UtmUps5Tuple(zone, hemipole, easting, northing, band)]. *)
Module Tup5.
Record t : Type := Make {
  zone : pyval;
  hemipole : pyval;
  easting : pyval;
  northing : pyval;
  band : pyval
}.
End Tup5.

(** [UtmUps8Tuple(zone, hemipole, easting, northing, band, datum,
    convergence, scale)]. *)
Module Tup8.
Record t : Type := Make {
  zone : pyval;
  hemipole : pyval;
  easting : pyval;
  northing : pyval;
  band : pyval;
  datum : pyval;
  convergence : pyval;
  scale : pyval
}.
End Tup8.

(** Any object a caller can pass as [coord]. *)
Inductive pyobj : Type :=
| Val (v : pyval)
| UtmInst (o : Obj.t)
| UpsInst (o : Obj.t)
| Tuple5 (t : Tup5.t)
| Tuple8 (t : Tup8.t)
| PlainTuple (l : list pyval).

(** ** Exceptions *)

(** An exception class is its name and its chain of base classes. *)
Inductive eclass : Type :=
| Exception
| Derived (name : string) (base : eclass).

Fixpoint eclass_eqb (c d : eclass) : bool :=
  match c, d with
  | Exception, Exception => true
  | Derived n b, Derived m e => String.eqb n m && eclass_eqb b e
  | _, _ => false
  end.

(** [issubclass(c, d)]. *)
Fixpoint issubclass (c d : eclass) : bool :=
  eclass_eqb c d
  || match c with
     | Exception => false
     | Derived _ b => issubclass b d
     end.

Definition TypeError : eclass := Derived "TypeError" Exception.
Definition ValueError : eclass := Derived "ValueError" Exception.
Definition ArithmeticError : eclass := Derived "ArithmeticError" Exception.
Definition OverflowError : eclass := Derived "OverflowError" ArithmeticError.

(** Modelled from the spec: [_ValueError] of [pygeodesy.errors], which
    is not among the sources, the base class of the errors of the
    package, itself a [ValueError]. *)
Definition _ValueError : eclass := Derived "_ValueError" ValueError.

(** Modelled from the spec: [RangeError] of [pygeodesy.errors], which
    is not among the sources, the range condition. *)
Definition RangeError : eclass := Derived "RangeError" _ValueError.

(** Modelled from the spec: [UTMError] of [pygeodesy.utm], which is
    not among the sources, the error of the UTM engine. *)
Definition UTMError : eclass := Derived "UTMError" _ValueError.

(** Modelled from the spec: [UPSError] of [pygeodesy.ups], which is
    not among the sources, the error of the UPS engine. *)
Definition UPSError : eclass := Derived "UPSError" _ValueError.

(** [class UTMUPSError(_ValueError)]. *)
Definition UTMUPSError : eclass := Derived "UTMUPSError" _ValueError.

(** An exception object: its class, and the positional and keyword
    arguments it was created with. *)
Record exn : Type := mkExn {
  exn_class : eclass;
  exn_args : list pyobj;
  exn_kwds : list (string * pyobj)
}.

(** [isinstance(x, c)]. *)
Definition isinstance (x : exn) (c : eclass) : bool :=
  issubclass (exn_class x) c.

(** [except (c1, c2, ...)] matches [x]. *)
Definition caught (x : exn) (cs : list eclass) : bool :=
  existsb (isinstance x) cs.

Inductive result (A : Type) : Type :=
| Ok (a : A)
| Raise (x : exn).

Arguments Ok {A} a.
Arguments Raise {A} x.

Definition bind {A B : Type} (m : result A) (k : A -> result B) : result B :=
  match m with
  | Ok a => k a
  | Raise x => Raise x
  end.

Notation "x <- m ;; k" := (bind m (fun x => k))
  (at level 61, m at next level, right associativity).
Notation "' p <- m ;; k" := (bind m (fun x => match x with p => k end))
  (at level 61, p pattern, m at next level, right associativity).
Notation "m ;;; k" := (bind m (fun _ => k))
  (at level 61, right associativity).

(** ** Strings and numbers *)

(** [str.find]: the index of the first occurrence of [sub], or [-1]. *)
Definition str_find (s sub : string) : Z :=
  match String.index 0 sub s with
  | Some k => Z.of_nat k
  | None => -1
  end.

(** ['%s' % z] for an [int], and ['%.0F' % x] for a [float] of
    integral value. *)
Definition str_of_Z (z : Z) : string :=
  NilZero.string_of_int (Z.to_int z).

(** [sep.join(parts)]. *)
Definition join (sep : string) (parts : list string) : string :=
  String.concat sep parts.

(** [a <= b] on floats. *)
Definition fle (a b : pyfloat) : bool :=
  match a, b with
  | NaN, _ | _, NaN => false
  | NegInf, _ => true
  | _, PosInf => true
  | Fin p, Fin q => Qle_bool p q
  | _, _ => false
  end.

(** The [float] of a table bound. *)
Definition ffloat (z : Z) : pyfloat := Fin (inject_Z z).

(** [a == b] on scalars. *)
Definition py_eqb (a b : pyval) : bool :=
  match a, b with
  | PyNone, PyNone => true
  | PyInt x, PyInt y => Z.eqb x y
  | PyInt x, PyFloat (Fin q) | PyFloat (Fin q), PyInt x => Qeq_bool (inject_Z x) q
  | PyFloat (Fin p), PyFloat (Fin q) => Qeq_bool p q
  | PyFloat PosInf, PyFloat PosInf => true
  | PyFloat NegInf, PyFloat NegInf => true
  | PyStr s, PyStr t => String.eqb s t
  | _, _ => false
  end.

(** [v in (a, b, ...)]. *)
Definition py_in (v : pyval) (t : list pyval) : bool :=
  existsb (py_eqb v) t.

(** ** Constants imported by [utmups.py] *)

(** Modelled from the spec: [_MGRS_TILE] of [pygeodesy.utmupsBase],
    which is not among the sources; the spec's tile is a unit of
    100,000 meter. *)
Definition _MGRS_TILE : Z := 100000.

(** Modelled from the spec: [_UPS_ZONE] of [pygeodesy.utmupsBase], the
    UPS sentinel zone, numeric 0. *)
Definition _UPS_ZONE : Z := 0.

(** Modelled from the spec: [_UPS_ZONE_STR] of [pygeodesy.utmupsBase],
    the string form of the UPS sentinel zone. *)
Definition _UPS_ZONE_STR : string := "00".

(** Modelled from the spec: [_UTMUPS_ZONE_MIN] of
    [pygeodesy.utmupsBase], the least zone of the global zone range,
    which is the sentinel. *)
Definition _UTMUPS_ZONE_MIN : Z := 0.

(** Modelled from the spec: [_UTMUPS_ZONE_MAX] of
    [pygeodesy.utmupsBase], the last of the 60 numbered UTM zones. *)
Definition _UTMUPS_ZONE_MAX : Z := 60.

(** Modelled from the spec: [NN] of [pygeodesy.interns], the empty
    string. *)
Definition NN : string := EmptyString.

(** Modelled from the spec: [_NS_] of [pygeodesy.interns], the letters
    of the hemispheres and poles, North first. *)
Definition _NS_ : string := "NS".

(** Modelled from the spec: [_SPACE_] of [pygeodesy.interns]. *)
Definition _SPACE_ : string := " ".

(** Modelled from the spec: [_easting_] of [pygeodesy.interns], the
    name of the field. *)
Definition _easting_ : string := "easting".

(** Modelled from the spec: [_northing_] of [pygeodesy.interns], the
    name of the field. *)
Definition _northing_ : string := "northing".

(** Modelled from the spec: [_outside_] of [pygeodesy.interns]. *)
Definition _outside_ : string := "outside".

(** Modelled from the spec: [_range_] of [pygeodesy.interns]. *)
Definition _range_ : string := "range".

(** Modelled from the spec: [_UPS_] of [pygeodesy.interns], the name
    of the family. *)
Definition _UPS_ : string := "UPS".

(** Modelled from the spec: [_UTM_] of [pygeodesy.interns], the name
    of the family. *)
Definition _UTM_ : string := "UTM".

(** Modelled from the spec: [_MGRS_] of [pygeodesy.interns], the name
    of the widened ranges. *)
Definition _MGRS_ : string := "MGRS".

(** ** Range tables *)

Definition _UPS_N_MAX : Z := 27 * _MGRS_TILE.
Definition _UPS_N_MIN : Z := 13 * _MGRS_TILE.
Definition _UPS_S_MAX : Z := 32 * _MGRS_TILE.
Definition _UPS_S_MIN : Z := 8 * _MGRS_TILE.

Definition _UTM_C_MAX : Z := 9 * _MGRS_TILE.
Definition _UTM_C_MIN : Z := 1 * _MGRS_TILE.
Definition _UTM_N_MAX : Z := 95 * _MGRS_TILE.
Definition _UTM_N_MIN : Z := 0 * _MGRS_TILE.
Definition _UTM_S_MAX : Z := 100 * _MGRS_TILE.
Definition _UTM_S_MIN : Z := 10 * _MGRS_TILE.

(** South minus North UTM northing. *)
Definition _UTM_N_SHIFT : Z := _UTM_S_MAX - _UTM_N_MIN.

(** A table of ranges: each attribute is a 2-tuple, indexed by the
    position of the hemisphere or pole in ["NS"]. *)
Record MinMax : Type := mkMinMax {
  eMax : list Z;
  eMin : list Z;
  nMax : list Z;
  nMin : list Z
}.

(** UPS ranges for North, South pole. *)
Definition _UpsMinMax : MinMax := {|
  eMax := [_UPS_N_MAX; _UPS_S_MAX];
  eMin := [_UPS_N_MIN; _UPS_S_MIN];
  nMax := [_UPS_N_MAX; _UPS_S_MAX];
  nMin := [_UPS_N_MIN; _UPS_S_MIN]
|}.

(** UTM ranges for Northern, Southern hemisphere. *)
Definition _UtmMinMax : MinMax := {|
  eMax := [_UTM_C_MAX; _UTM_C_MAX];
  eMin := [_UTM_C_MIN; _UTM_C_MIN];
  nMax := [_UTM_N_MAX; _UTM_N_MAX + _UTM_N_SHIFT];
  nMin := [_UTM_S_MIN - _UTM_N_SHIFT; _UTM_S_MIN]
|}.

(** [t[i]] on a tuple of numbers; the validator only indexes with
    [0] or [1], the positions [str_find] reports in ["NS"]. *)
Definition item (t : list Z) (i : Z) : Z :=
  nth (Z.to_nat i) t 0.

(** ** The validator *)

(** The two families of coordinates; [utmupsValidate] selects with
    the family the module [u] (for [u._Bands]), the name [U] and the
    table [M]. *)
Inductive family : Type :=
| UPS
| UTM.

Definition family_name (f : family) : string :=
  match f with
  | UPS => _UPS_
  | UTM => _UTM_
  end.

Definition family_MinMax (f : family) : MinMax :=
  match f with
  | UPS => _UpsMinMax
  | UTM => _UtmMinMax
  end.

(** The names of the accepted classes, as [modulename] reports them
    to [_IsnotError]. *)
Definition coord_class_names : list string :=
  ["Utm"; "Ups"; "UtmUps5Tuple"; "UtmUps8Tuple"].

(** Modelled from the spec: [_IsnotError] of [pygeodesy.errors], which
    is not among the sources; the call
    [_IsnotError(Error=Error, coord=coord, *names)] makes an [Error]
    for the type mismatch that names the acceptable input shapes. *)
Definition _IsnotError (Error : eclass) (coord : pyobj) (names : list string) : exn :=
  mkExn Error (map (fun n => Val (PyStr n)) names) [("coord", coord)].

Section Validator.

(** [float(s)] for a [str], [None] when it raises [ValueError]:
    part of the Python runtime. *)
Variable float_of_str : string -> option pyfloat.

(** [_to3zBhp(zone, band, hemipole=...)] of [pygeodesy.utmupsBase],
    returning the normalized zone (an [int]), band and hemisphere
    or pole (two [str]). *)
Variable _to3zBhp : pyval -> pyval -> pyval -> result (Z * string * string).

(** [B in u._Bands] for the module [u] of a family. *)
Variable _Bands : family -> string -> bool.

(** [float(v)].  An [int] converts to the nearest [float] and
    raises [OverflowError] from [2**1024 - 2**970] on; rounding is
    monotone and every table bound is a [float], so comparing the
    exact value with a bound gives the same answer. *)
Definition py_float (v : pyval) : result pyfloat :=
  match v with
  | PyFloat x => Ok x
  | PyInt z =>
      if Z.abs z <? 2 ^ 1024 - 2 ^ 970 then Ok (Fin (inject_Z z))
      else Raise (mkExn OverflowError
                    [Val (PyStr "int too large to convert to float")] [])
  | PyStr s =>
      match float_of_str s with
      | Some x => Ok x
      | None => Raise (mkExn ValueError
                         [Val (PyStr "could not convert string to float")] [])
      end
  | PyNone =>
      Raise (mkExn TypeError
               [Val (PyStr "float() argument must be a string or a number")] [])
  end.

(** The text of a range error. *)
Definition range_txt (U : string) (lo hi : Z) : string :=
  join _SPACE_ [_outside_; U; _range_; ("[" ++ str_of_Z lo)%string;
                (str_of_Z hi ++ "]")%string].

(** [Error(ename, en, txt=t)], the error of a field outside its
    range. *)
Definition range_error (Error : eclass) (U ename : string) (en : pyval)
    (lo hi : Z) : exn :=
  mkExn Error [Val (PyStr ename); Val en]
    [("txt", Val (PyStr (range_txt U lo hi)))].

(** The nested function [_en(en, lo, hi, ename)], closed over [U]
    and [Error]. *)
Definition _en (U : string) (Error : eclass)
    (en : pyval) (lo hi : Z) (ename : string) : result unit :=
  let failed := Raise (range_error Error U ename en lo hi) in
  match py_float en with
  | Ok x => if fle (ffloat lo) x && fle x (ffloat hi) then Ok tt else failed
  | Raise x => if caught x [TypeError; ValueError] then failed else Raise x
  end.

(** The fields read from [coord]:
    [(zone, hemi, e, n, band, enMM)]. *)
Definition fields : Type := (pyval * pyval * pyval * pyval * pyval * bool)%type.

(** The [isinstance] chain at the head of [utmupsValidate]. *)
Definition coord_fields (coord : pyobj) (falsed : bool) (Error : eclass)
    : result fields :=
  match coord with
  | UtmInst o | UpsInst o =>
      Ok (Obj.zone o, Obj.hemisphere o, Obj.easting o, Obj.northing o,
          Obj.band o, Obj.falsed o)
  | Tuple5 t =>
      Ok (Tup5.zone t, Tup5.hemipole t, Tup5.easting t, Tup5.northing t,
          Tup5.band t, falsed)
  | Tuple8 t =>
      Ok (Tup8.zone t, Tup8.hemipole t, Tup8.easting t, Tup8.northing t,
          Tup8.band t, falsed)
  | _ => Raise (_IsnotError Error coord coord_class_names)
  end.

(** The family selected by [z == _UPS_ZONE]. *)
Definition zone_family (z : Z) : family :=
  if z =? _UPS_ZONE then UPS else UTM.

(** The condition under which the zone, band and hemisphere are
    refused, with [i = _NS_.find(h)]. *)
Definition inconsistent (z : Z) (B h : string) : bool :=
  let i := str_find _NS_ h in
  (i <? 0) || (z <? _UTMUPS_ZONE_MIN) || (z >? _UTMUPS_ZONE_MAX)
  || negb (_Bands (zone_family z) B).

(** The error raised for an inconsistent zone, band or hemisphere. *)
Definition zone_error (Error : eclass) (U : string) (z : Z) (B h : string)
    (zone band hemi : pyval) : exn :=
  let t := (U ++ "(" ++ str_of_Z z ++ B ++ " " ++ h ++ ")")%string in
  mkExn Error []
    [("coord", Val (PyStr t)); ("zone", Val zone); ("band", Val band);
     ("hemisphere", Val hemi)].

(** The name [U] used in messages and the margin [s] added to the
    ranges, after [if MGRS: U, s = _MGRS_, _MGRS_TILE else: s = 0]. *)
Definition range_name (MGRS : bool) (f : family) : string :=
  if MGRS then _MGRS_ else family_name f.

Definition margin (MGRS : bool) : Z :=
  if MGRS then _MGRS_TILE else 0.

Definition utmupsValidate (coord : pyobj) (falsed MGRS : bool) (Error : eclass)
    : result unit :=
  '(zone, hemi, e, n, band, enMM) <- coord_fields coord falsed Error ;;
  '(z, B, h) <- _to3zBhp zone band hemi ;;
  let f := zone_family z in
  let M := family_MinMax f in
  let U := range_name MGRS f in
  let s := margin MGRS in
  let i := str_find _NS_ h in
  if inconsistent z B h then
    Raise (zone_error Error U z B h zone band hemi)
  else if enMM then
    _en U Error e (item (eMin M) i - s) (item (eMax M) i + s) _easting_ ;;;
    _en U Error n (item (nMin M) i - s) (item (nMax M) i + s) _northing_
  else Ok tt.

(** What [utmupsValidateOK] returns: [ok], or the error caught. *)
Inductive ok_or_error (A : Type) : Type :=
| IsOk (ok : A)
| IsError (x : exn).

Definition utmupsValidateOK {A : Type} (coord : pyobj) (falsed : bool) (ok : A)
    : result (ok_or_error A) :=
  match utmupsValidate coord falsed false UTMUPSError with
  | Ok _ => Ok (IsOk A ok)
  | Raise x => if caught x [UTMUPSError] then Ok (IsError A x) else Raise x
  end.

End Validator.

(** ** Calls to the UTM and UPS engines *)

(** The classes [Utm] and [Ups]. *)
Inductive pyclass : Type :=
| Utm
| Ups.

(** [UtmUpsLatLon5Tuple(zone, band, hemipole, lat, lon)]. *)
Record UtmUpsLatLon5Tuple : Type := mkLatLon5 {
  ll_zone : Z;
  ll_band : string;
  ll_hemipole : string;
  ll_lat : Q;
  ll_lon : Q
}.

(** The arguments [U(z, hp, easting, northing, band=B, datum=datum,
    falsed=falsed, name=name)] of a constructor call. *)
Record new_args : Type := mkNew {
  new_zone : Z;
  new_hemipole : string;
  new_easting : pyval;
  new_northing : pyval;
  new_band : string;
  new_datum : pyval;
  new_falsed : bool;
  new_name : string
}.

(** The calls [utmups.py] makes into [pygeodesy.utm] and
    [pygeodesy.ups], in the order they are made. *)
Inductive call : Type :=
| Call_utmZoneBand5 (lat lon : pyval) (cmoff : bool)
| Call_upsZoneBand5 (lat lon : pyval)
| Call_parseUTM5 (strUTM : string) (datum : pyval) (U : option pyclass) (name : string)
| Call_parseUPS5 (strUPS : string) (datum : pyval) (U : option pyclass) (name : string)
| Call_new (U : pyclass) (a : new_args).

(** A computation that records the calls it makes. *)
Definition traced (A : Type) : Type := (list call * result A)%type.

Definition calls {A : Type} (m : traced A) : list call := fst m.
Definition outcome {A : Type} (m : traced A) : result A := snd m.

Definition invoke {A : Type} (c : call) (r : result A) : traced A := ([c], r).

Definition lift {A : Type} (r : result A) : traced A := ([], r).

Definition tbind {A B : Type} (m : traced A) (k : A -> traced B) : traced B :=
  match m with
  | (t, Ok a) => let (t', r) := k a in ((t ++ t')%list, r)
  | (t, Raise x) => (t, Raise x)
  end.

(** [try: m except cs as x: h(x)]. *)
Definition try_except {A : Type} (m : traced A) (cs : list eclass)
    (h : exn -> traced A) : traced A :=
  match m with
  | (t, Ok a) => (t, Ok a)
  | (t, Raise x) =>
      if caught x cs then let (t', r) := h x in ((t ++ t')%list, r)
      else (t, Raise x)
  end.

Section Dispatch.

Variable utmZoneBand5 : pyval -> pyval -> bool -> result UtmUpsLatLon5Tuple.
Variable upsZoneBand5 : pyval -> pyval -> result UtmUpsLatLon5Tuple.

Variable parseUTM5 : string -> pyval -> option pyclass -> string -> result pyobj.
Variable parseUPS5 : string -> pyval -> option pyclass -> string -> result pyobj.

(** [str(x)] of an exception. *)
Variable exn_str : exn -> string.

Variable _to3zBhp : pyval -> pyval -> pyval -> result (Z * string * string).

(** [U(...)] for a class [U]. *)
Variable new : pyclass -> new_args -> result pyobj.

Definition utmupsZoneBand5 (lat lon : pyval) (cmoff : bool)
    : traced UtmUpsLatLon5Tuple :=
  try_except
    (invoke (Call_utmZoneBand5 lat lon cmoff) (utmZoneBand5 lat lon cmoff))
    [RangeError]
    (fun _ => invoke (Call_upsZoneBand5 lat lon) (upsZoneBand5 lat lon)).

Definition parseUTMUPS5 (strUTMUPS : string) (datum : pyval)
    (Utm_ Ups_ : option pyclass) (name : string) : traced pyobj :=
  try_except
    (try_except
       (invoke (Call_parseUTM5 strUTMUPS datum Utm_ name)
          (parseUTM5 strUTMUPS datum Utm_ name))
       [UTMError]
       (fun _ =>
          invoke (Call_parseUPS5 strUTMUPS datum Ups_ name)
            (parseUPS5 strUTMUPS datum Ups_ name)))
    [UTMError; UPSError]
    (fun x =>
       lift (Raise (mkExn UTMUPSError []
                      [("strUTMUPS", Val (PyStr strUTMUPS));
                       ("txt", Val (PyStr (exn_str x)))]))).

(** The class selected by [z in (_UPS_ZONE, _UPS_ZONE_STR)]. *)
Definition UtmUps_class (z : Z) : pyclass :=
  if py_in (PyInt z) [PyInt _UPS_ZONE; PyStr _UPS_ZONE_STR] then Ups else Utm.

Definition UtmUps (zone hemipole easting northing band datum : pyval)
    (falsed : bool) (name : string) : traced pyobj :=
  tbind (lift (_to3zBhp zone band hemipole)) (fun '(z, B, hp) =>
    let U := UtmUps_class z in
    let a := mkNew z hp easting northing B datum falsed name in
    invoke (Call_new U a) (new U a)).

End Dispatch.

(** ** The conversion [toUtmUps8] *)

(** The argument [latlon]: a latitude in degrees, or a geodetic
    point with its own latitude, longitude, datum and name. *)
Inductive latlon_arg : Type :=
| Degrees (lat : pyval)
| Point (lat lon datum : pyval) (name : string).

(** Modelled from the spec: [_xkwds_get] of [pygeodesy.errors], which
    is not among the sources: [_xkwds_get(kwds, name=default)] is the
    value of the keyword [name] in [kwds], and [default] when it was
    not given. *)
Fixpoint _xkwds_get (kwds : list (string * bool)) (name : string) (default : bool)
    : bool :=
  match kwds with
  | [] => default
  | (k, v) :: rest => if String.eqb k name then v else _xkwds_get rest name default
  end.

(** [a or b] on strings. *)
Definition str_or (a b : string) : string :=
  match a with
  | EmptyString => b
  | _ => a
  end.

(** The calls [toUtmUps8] makes: those of the classifier, and the
    call of a projection engine. *)
Inductive call8 : Type :=
| Classifier (c : call)
| Call_toUps8 (lat lon : Q) (datum : pyval) (falsed : bool) (U : option pyclass)
    (pole name : string)
| Call_toUtm8 (lat lon : Q) (datum : pyval) (falsed : bool) (U : option pyclass)
    (name : string).

Section Convert.

Variable utmZoneBand5 : pyval -> pyval -> bool -> result UtmUpsLatLon5Tuple.
Variable upsZoneBand5 : pyval -> pyval -> result UtmUpsLatLon5Tuple.

(** [_to4lldn(latlon, lon, datum, name)] of [pygeodesy.utmupsBase],
    returning the latitude, the longitude, the datum and the name. *)
Variable _to4lldn :
  latlon_arg -> pyval -> pyval -> string -> result (pyval * pyval * pyval * string).

(** [toUps8(lat, lon, datum=, falsed=, Ups=, pole=, name=)]. *)
Variable toUps8 :
  Q -> Q -> pyval -> bool -> option pyclass -> string -> string -> result pyobj.

(** [toUtm8(lat, lon, datum=, falsed=, Utm=, name=)]. *)
Variable toUtm8 :
  Q -> Q -> pyval -> bool -> option pyclass -> string -> result pyobj.

Definition toUtmUps8 (latlon : latlon_arg) (lon datum : pyval) (falsed : bool)
    (Utm_ Ups_ : option pyclass) (pole name : string)
    (cmoff : list (string * bool)) : list call8 * result pyobj :=
  match _to4lldn latlon lon datum name with
  | Raise x => ([], Raise x)
  | Ok (lat, lon, d, name) =>
      let (t, r) := utmupsZoneBand5 utmZoneBand5 upsZoneBand5 lat lon false in
      match r with
      | Raise x => (map Classifier t, Raise x)
      | Ok (mkLatLon5 z B p lat lon) =>
          let f := falsed && _xkwds_get cmoff "cmoff" true in
          if z =? _UPS_ZONE then
            ((map Classifier t
              ++ [Call_toUps8 lat lon d f Ups_ (str_or pole p) name])%list,
             toUps8 lat lon d f Ups_ (str_or pole p) name)
          else
            ((map Classifier t ++ [Call_toUtm8 lat lon d f Utm_ name])%list,
             toUtm8 lat lon d f Utm_ name)
      end
  end.

End Convert.

(** ** Models of the absent collaborators

    The definitions of this part stand for code that [utmups.py]
    imports.  The theorems below quantify over the collaborators; the
    models serve to run the embedded functions on concrete
    coordinates. *)

Definition is_digit (c : ascii) : bool :=
  (48 <=? nat_of_ascii c)%nat && (nat_of_ascii c <=? 57)%nat.

Definition is_upper (c : ascii) : bool :=
  (65 <=? nat_of_ascii c)%nat && (nat_of_ascii c <=? 90)%nat.

Definition upper_ascii (c : ascii) : ascii :=
  if (97 <=? nat_of_ascii c)%nat && (nat_of_ascii c <=? 122)%nat
  then ascii_of_nat (nat_of_ascii c - 32)
  else c.

(** [s.upper()]. *)
Fixpoint upper (s : string) : string :=
  match s with
  | EmptyString => EmptyString
  | String c r => String (upper_ascii c) (upper r)
  end.

Fixpoint digits_value (s : string) (acc : Z) : option Z :=
  match s with
  | EmptyString => Some acc
  | String c r =>
      if is_digit c
      then digits_value r (10 * acc + Z.of_nat (nat_of_ascii c - 48))
      else None
  end.

(** A non-empty string of decimal digits. *)
Definition parse_nat (s : string) : option Z :=
  match s with
  | EmptyString => None
  | _ => digits_value s 0
  end.

Definition parse_int (s : string) : option Z :=
  match s with
  | String "-" r => option_map Z.opp (parse_nat r)
  | _ => parse_nat s
  end.

(** [float(s)] on the decimal integers, a fragment of what Python's
    [float] accepts that is enough for the examples. *)
Definition float_of_decimal (s : string) : option pyfloat :=
  option_map ffloat (parse_int s).

(** Modelled from the spec: the band alphabet [_Bands] of
    [pygeodesy.utm], which is not among the sources: the latitude
    bands, the letters 'C' to 'X' ('I' and 'O' are no band
    letters). *)
Definition utm_Bands : list string :=
  ["C"; "D"; "E"; "F"; "G"; "H"; "J"; "K"; "L"; "M";
   "N"; "P"; "Q"; "R"; "S"; "T"; "U"; "V"; "W"; "X"].

(** Modelled from the spec: the band alphabet [_Bands] of
    [pygeodesy.ups], which is not among the sources: the polar bands
    are exactly 'A', 'B', 'Y' and 'Z'. *)
Definition ups_Bands : list string := ["A"; "B"; "Y"; "Z"].

(** Modelled from the spec: [B in u._Bands], the band is a member of
    the alphabet of the family. *)
Definition Bands_model (f : family) (B : string) : bool :=
  existsb (String.eqb B)
    match f with
    | UPS => ups_Bands
    | UTM => utm_Bands
    end.

(** Modelled from the spec: a zone given as a string is a number,
    possibly followed by a band letter. *)
Definition split_zone (s : string) : option (Z * option string) :=
  match parse_nat s with
  | Some z => Some (z, None)
  | None =>
      let k := (String.length s - 1)%nat in
      match parse_nat (substring 0 k s), substring k 1 s with
      | Some z, String c EmptyString =>
          if is_upper (upper_ascii c) then Some (z, Some (String c EmptyString))
          else None
      | _, _ => None
      end
  end.

(** Modelled from the spec: [_to3zBhp] of [pygeodesy.utmupsBase], which
    is not among the sources.  It normalizes the zone, band and
    hemisphere representations: the zone is an integer or a string
    that may end in a band letter, the hemisphere or pole is 'N[orth]'
    or 'S[outh]'; what cannot be read is refused with the module's
    own error, as the callers in [utmups.py] pass no [Error].  Whether
    the normalized zone, band and hemisphere are legal is left to
    the validator. *)
Definition to3zBhp_model (zone band hemipole : pyval)
    : result (Z * string * string) :=
  let invalid :=
    Raise (mkExn _ValueError []
             [("zone", Val zone); ("band", Val band); ("hemipole", Val hemipole)]) in
  match band, hemipole with
  | PyStr b, PyStr hp =>
      let h := upper (substring 0 1 hp) in
      match zone with
      | PyInt z => Ok (z, upper b, h)
      | PyStr s =>
          match split_zone s with
          | Some (z, None) => Ok (z, upper b, h)
          | Some (z, Some l) => Ok (z, upper l, h)
          | None => invalid
          end
      | _ => invalid
      end
  | _, _ => invalid
  end.

(** Modelled from the spec: the reading of a latitude or longitude by
    [utmZoneBand5] and [upsZoneBand5], as their callers' docstring in
    [utmups.py] has it: [ValueError] for an invalid value, and for a
    value outside the valid range [RangeError] if [rangerrors] is set
    and the clipped value otherwise. *)
Definition parse_degrees (rangerrors : bool) (limit : Z) (v : pyval) : result Q :=
  match py_float float_of_decimal v with
  | Ok (Fin q) =>
      if Qle_bool (inject_Z (- limit)) q && Qle_bool q (inject_Z limit) then Ok q
      else if rangerrors then
        Raise (mkExn RangeError [Val v] [("txt", Val (PyStr "outside valid range"))])
      else if Qle_bool q 0 then Ok (inject_Z (- limit))
      else Ok (inject_Z limit)
  | _ => Raise (mkExn ValueError [Val v] [("txt", Val (PyStr "invalid"))])
  end.

(** Modelled from the spec: the UTM bands begin at 80S. *)
Definition _UTM_LAT_MIN : Z := -80.

(** Modelled from the spec: the UTM bands end before 84N. *)
Definition _UTM_LAT_MAX : Z := 84.

(** Modelled from the spec: the letters of the 8 degree rows from 80S
    on; the last row, 'X', spans 12 degrees. *)
Definition utm_rows : string := "CDEFGHJKLMNPQRSTUVWXX".

(** Modelled from the spec: [utmZoneBand5] of [pygeodesy.utm], which is
    not among the sources.  It fails with a range condition when the
    latitude is outside the UTM bands, [-80, 84); otherwise the zone
    is the 6 degree strip of the longitude, and the band the row of
    the latitude (the exceptions of Norway and Svalbard are left
    out). *)
Definition utmZoneBand5_model (rangerrors : bool) (lat lon : pyval) (cmoff : bool)
    : result UtmUpsLatLon5Tuple :=
  a <- parse_degrees rangerrors 90 lat ;;
  b <- parse_degrees rangerrors 180 lon ;;
  if Qle_bool (inject_Z _UTM_LAT_MIN) a && negb (Qle_bool (inject_Z _UTM_LAT_MAX) a)
  then
    let z := Qfloor ((b + 180) / 6)%Q mod 60 + 1 in
    let B := substring (Z.to_nat (Qfloor (a + 80)%Q / 8)) 1 utm_rows in
    let hp := if Qle_bool 0 a then "N" else "S" in
    let b' := if cmoff then (b - inject_Z (6 * z - 183))%Q else b in
    Ok (mkLatLon5 z B hp a b')
  else
    Raise (mkExn RangeError [Val lat] [("txt", Val (PyStr "outside UTM"))]).

(** Modelled from the spec: [upsZoneBand5] of [pygeodesy.ups], which is
    not among the sources.  It succeeds for any latitude, with the
    sentinel zone and the nearer pole. *)
Definition upsZoneBand5_model (rangerrors : bool) (lat lon : pyval)
    : result UtmUpsLatLon5Tuple :=
  a <- parse_degrees rangerrors 90 lat ;;
  b <- parse_degrees rangerrors 180 lon ;;
  let north := Qle_bool 0 a in
  let east := Qle_bool 0 b in
  let B := if north then (if east then "Z" else "Y")
           else (if east then "B" else "A") in
  Ok (mkLatLon5 _UPS_ZONE B (if north then "N" else "S") a b).

(** Modelled from the spec: the constructors [Utm] and [Ups], which are
    not among the sources.  Each makes an instance with the attributes
    given, and fails with the error of its module when the band is
    not one of its family. *)
Definition new_model (U : pyclass) (a : new_args) : result pyobj :=
  let o := Obj.Make (PyInt (new_zone a)) (PyStr (new_hemipole a))
             (new_easting a) (new_northing a) (PyStr (new_band a))
             (new_falsed a) (new_datum a) in
  let bad (E : eclass) (name : string) :=
    Raise (mkExn E [] [(name, Val (PyStr (new_band a)))]) in
  match U with
  | Utm =>
      if String.eqb (new_band a) NN || Bands_model UTM (new_band a)
      then Ok (UtmInst o) else bad UTMError "band"
  | Ups =>
      if String.eqb (new_band a) NN || Bands_model UPS (new_band a)
      then Ok (UpsInst o) else bad UPSError "band"
  end.

(** [s.split()] on blanks. *)
Fixpoint split_blanks (s : string) (word : string) : list string :=
  let flush := match word with EmptyString => [] | _ => [word] end in
  match s with
  | EmptyString => flush
  | String " " r => (flush ++ split_blanks r EmptyString)%list
  | String c r => split_blanks r (word ++ String c EmptyString)%string
  end.

(** Modelled from the spec: the fields of a string of the shape
    "zone[band] hemisphere/pole easting northing". *)
Definition parse_fields (s : string) : option new_args :=
  match split_blanks s EmptyString with
  | [zB; hp; e; n] =>
      match to3zBhp_model (PyStr zB) (PyStr NN) (PyStr hp),
            float_of_decimal e, float_of_decimal n with
      | Ok (z, B, h), Some x, Some y =>
          if (0 <=? str_find _NS_ h) && negb (String.eqb h NN)
          then Some (mkNew z h (PyFloat x) (PyFloat y) B PyNone true NN)
          else None
      | _, _, _ => None
      end
  | _ => None
  end.

(** Modelled from the spec: a parser returns an instance of the class
    it is given, or a [UtmUps5Tuple] when the class is [None]. *)
Definition parsed (U : option pyclass) (a : new_args) : result pyobj :=
  match U with
  | Some c => new_model c a
  | None =>
      Ok (Tuple5 (Tup5.Make (PyInt (new_zone a)) (PyStr (new_hemipole a))
                    (new_easting a) (new_northing a) (PyStr (new_band a))))
  end.

(** Modelled from the spec: [parseUTM5] of [pygeodesy.utm], which is
    not among the sources: it reads a UTM coordinate and fails with
    its module's error. *)
Definition parseUTM5_model (s : string) (datum : pyval) (U : option pyclass)
    (name : string) : result pyobj :=
  let invalid := Raise (mkExn UTMError [] [("strUTM", Val (PyStr s))]) in
  match parse_fields s with
  | Some a =>
      if (1 <=? new_zone a) && (new_zone a <=? 60) then parsed U a else invalid
  | None => invalid
  end.

(** Modelled from the spec: [parseUPS5] of [pygeodesy.ups], which is
    not among the sources: it reads a UPS coordinate and fails with
    its module's error. *)
Definition parseUPS5_model (s : string) (datum : pyval) (U : option pyclass)
    (name : string) : result pyobj :=
  let invalid := Raise (mkExn UPSError [] [("strUPS", Val (PyStr s))]) in
  match parse_fields s with
  | Some a => if new_zone a =? _UPS_ZONE then parsed U a else invalid
  | None => invalid
  end.

(** Modelled from the spec: [str(x)] for an error of
    [pygeodesy.errors], which is not among the sources; the message
    is made of the first keyword argument, as [name (value)]. *)
Definition exn_str_model (x : exn) : string :=
  match exn_kwds x with
  | (n, Val (PyStr v)) :: _ => (n ++ " (" ++ v ++ ")")%string
  | _ => EmptyString
  end.

(** Modelled from the spec: [_to4lldn] of [pygeodesy.utmupsBase], which
    is not among the sources.  It accepts a geodetic point or a
    latitude with a longitude, and resolves the datum: the datum
    given, else the one of the point, else WGS84; a latitude without
    a longitude is a [TypeError]. *)
Definition to4lldn_model (latlon : latlon_arg) (lon datum : pyval) (name : string)
    : result (pyval * pyval * pyval * string) :=
  let given (d other : pyval) :=
    match d with
    | PyNone => other
    | _ => d
    end in
  match latlon with
  | Point lat' lon' datum' name' =>
      Ok (lat', lon', given datum datum', str_or name name')
  | Degrees lat' =>
      match lon with
      | PyNone => Raise (mkExn TypeError [Val (PyStr "lon")] [])
      | _ => Ok (lat', lon, given datum (PyStr "WGS84"), name)
      end
  end.

(** Modelled from the spec: [toUtm8] of [pygeodesy.utm], which is not
    among the sources.  The projection is out of scope: the model
    answers with a [UtmUps8Tuple] that has the zone, hemisphere and
    band of the place and the datum, and leaves the easting, the
    northing, the convergence and the scale open. *)
Definition toUtm8_model (lat lon : Q) (datum : pyval) (falsed : bool)
    (U : option pyclass) (name : string) : result pyobj :=
  r <- utmZoneBand5_model false (PyFloat (Fin lat)) (PyFloat (Fin lon)) false ;;
  Ok (Tuple8 (Tup8.Make (PyInt (ll_zone r)) (PyStr (ll_hemipole r)) PyNone PyNone
                (PyStr (ll_band r)) datum PyNone PyNone)).

(** Modelled from the spec: [toUps8] of [pygeodesy.ups], which is not
    among the sources.  The projection is out of scope: the model
    answers with a [UtmUps8Tuple] that has the sentinel zone, the
    pole asked for, the band of the place and the datum, and leaves
    the easting, the northing, the convergence and the scale open. *)
Definition toUps8_model (lat lon : Q) (datum : pyval) (falsed : bool)
    (U : option pyclass) (pole name : string) : result pyobj :=
  r <- upsZoneBand5_model false (PyFloat (Fin lat)) (PyFloat (Fin lon)) ;;
  Ok (Tuple8 (Tup8.Make (PyInt (ll_zone r)) (PyStr pole) PyNone PyNone
                (PyStr (ll_band r)) datum PyNone PyNone)).

(** * Properties *)

(** ** The range tables *)

Lemma UpsMinMax_values :
  eMin _UpsMinMax = [1300000; 800000] /\ eMax _UpsMinMax = [2700000; 3200000]
  /\ nMin _UpsMinMax = [1300000; 800000] /\ nMax _UpsMinMax = [2700000; 3200000].
Proof. repeat split. Qed.

Lemma UtmMinMax_values :
  eMin _UtmMinMax = [100000; 100000] /\ eMax _UtmMinMax = [900000; 900000]
  /\ nMin _UtmMinMax = [-9000000; 1000000] /\ nMax _UtmMinMax = [9500000; 19500000].
Proof. repeat split. Qed.

(** C1, as the spec words it, does not hold of [_UtmMinMax]: the
    Northern northing range would be [0, 95] tiles, the Southern one
    the Northern one shifted by 100 - (-5) tiles, and no northing
    bound would be negative. *)
Lemma UtmMinMax_not_as_specified :
  ~ (eMin _UtmMinMax = [1 * _MGRS_TILE; 1 * _MGRS_TILE]
     /\ eMax _UtmMinMax = [9 * _MGRS_TILE; 9 * _MGRS_TILE]
     /\ item (nMin _UtmMinMax) 0 = 0 * _MGRS_TILE
     /\ item (nMax _UtmMinMax) 0 = 95 * _MGRS_TILE
     /\ item (nMin _UtmMinMax) 1
        = item (nMin _UtmMinMax) 0 + (100 - (-5)) * _MGRS_TILE
     /\ item (nMax _UtmMinMax) 1
        = item (nMax _UtmMinMax) 0 + (100 - (-5)) * _MGRS_TILE
     /\ 0 <= item (nMin _UtmMinMax) 0
     /\ 0 <= item (nMin _UtmMinMax) 1).
Proof.
  intros (_ & _ & Hmin & _).
  vm_compute in Hmin. discriminate Hmin.
Qed.

(** C1, amended: the UTM easting range is [1, 9] tiles for both
    hemispheres; the Northern northing range is [-90, 95] tiles; the
    Southern northing range, [10, 195] tiles, is the Northern one
    shifted by [_UTM_N_SHIFT], which is 100 - 0 tiles; the Southern
    bounds are positive and the Northern minimum is negative. *)
Theorem UtmMinMax_table :
  eMin _UtmMinMax = [1 * _MGRS_TILE; 1 * _MGRS_TILE]
  /\ eMax _UtmMinMax = [9 * _MGRS_TILE; 9 * _MGRS_TILE]
  /\ item (nMin _UtmMinMax) 0 = -90 * _MGRS_TILE
  /\ item (nMax _UtmMinMax) 0 = 95 * _MGRS_TILE
  /\ _UTM_N_SHIFT = (100 - 0) * _MGRS_TILE
  /\ item (nMin _UtmMinMax) 1 = item (nMin _UtmMinMax) 0 + _UTM_N_SHIFT
  /\ item (nMax _UtmMinMax) 1 = item (nMax _UtmMinMax) 0 + _UTM_N_SHIFT
  /\ item (nMin _UtmMinMax) 1 = 10 * _MGRS_TILE
  /\ item (nMax _UtmMinMax) 1 = 195 * _MGRS_TILE
  /\ 0 < item (nMin _UtmMinMax) 1
  /\ item (nMin _UtmMinMax) 0 < 0.
Proof.
  repeat split.
Qed.

(** ** Classes and exceptions *)

Lemma eclass_eqb_refl (c : eclass) : eclass_eqb c c = true.
Proof.
  induction c as [|n b IH]; simpl; [reflexivity|].
  now rewrite String.eqb_refl, IH.
Qed.

Lemma eclass_eqb_eq (c d : eclass) : eclass_eqb c d = true <-> c = d.
Proof.
  split; [|intros ->; apply eclass_eqb_refl].
  revert d; induction c as [|n b IH]; intros [|m e]; simpl; try discriminate; auto.
  intros H. apply andb_true_iff in H as [Hn Hb].
  apply String.eqb_eq in Hn. apply IH in Hb. now subst.
Qed.

Lemma issubclass_refl (c : eclass) : issubclass c c = true.
Proof. destruct c; simpl; now rewrite ?String.eqb_refl, ?eclass_eqb_refl. Qed.

(** An exception made with the class [Error] is caught by
    [except Error]. *)
Lemma caught_own_class (Error : eclass) (args : list pyobj) (kw : list (string * pyobj)) :
  caught (mkExn Error args kw) [Error] = true.
Proof. unfold caught, isinstance; simpl. now rewrite issubclass_refl. Qed.

Lemma caught_one (x : exn) (c : eclass) : caught x [c] = isinstance x c.
Proof. unfold caught; simpl. apply orb_false_r. Qed.

(** ** Strings *)

(** [_NS_.find(h)] is [-1], [0] or [1]. *)
Lemma str_find_NS_cases (h : string) :
  str_find _NS_ h = -1 \/ str_find _NS_ h = 0 \/ str_find _NS_ h = 1.
Proof.
  unfold str_find, _NS_.
  destruct h as [|c r].
  - right; left; reflexivity.
  - simpl.
    destruct (ascii_dec c "N"); destruct r as [|c' r']; simpl;
      repeat match goal with
             | |- context [ascii_dec ?a ?b] => destruct (ascii_dec a b); simpl
             | |- context [match ?s with EmptyString => _ | String _ _ => _ end] =>
                 destruct s; simpl
             end; auto.
Qed.

Lemma str_find_NS_N : str_find _NS_ "N" = 0.
Proof. reflexivity. Qed.

Lemma str_find_NS_S : str_find _NS_ "S" = 1.
Proof. reflexivity. Qed.

(** For a single letter, [_NS_.find] is negative exactly when the
    letter is neither 'N' nor 'S'. *)
Lemma str_find_NS_letter (c : ascii) :
  str_find _NS_ (String c EmptyString) < 0 <-> c <> "N"%char /\ c <> "S"%char.
Proof.
  unfold str_find, _NS_; simpl.
  destruct (ascii_dec c "N") as [->|HN]; simpl.
  - split; [lia | intros [H _]; now elim H].
  - destruct (ascii_dec c "S") as [->|HS]; simpl.
    + split; [lia | intros [_ H]; now elim H].
    + split; [auto | lia].
Qed.

(** ** Floats *)

Lemma fle_Fin (p q : Q) : fle (Fin p) (Fin q) = true <-> (p <= q)%Q.
Proof. apply Qle_bool_iff. Qed.

Lemma in_range_iff (lo hi : Z) (q : Q) :
  fle (ffloat lo) (Fin q) && fle (Fin q) (ffloat hi) = true
  <-> (inject_Z lo <= q <= inject_Z hi)%Q.
Proof.
  unfold ffloat. rewrite andb_true_iff, !fle_Fin. tauto.
Qed.

Lemma not_in_range_iff (lo hi : Z) (q : Q) :
  fle (ffloat lo) (Fin q) && fle (Fin q) (ffloat hi) = false
  <-> ~ (inject_Z lo <= q <= inject_Z hi)%Q.
Proof.
  rewrite <- in_range_iff. now destruct (_ && _).
Qed.

(** ** The validator *)

Section ValidatorFacts.

Variable float_of_str : string -> option pyfloat.
Variable _to3zBhp : pyval -> pyval -> pyval -> result (Z * string * string).
Variable _Bands : family -> string -> bool.

Local Abbreviation tofloat := (py_float float_of_str).
Local Abbreviation en_check := (_en float_of_str).
Local Abbreviation refused := (inconsistent _Bands).
Local Abbreviation validate := (utmupsValidate float_of_str _to3zBhp _Bands).
Local Abbreviation validateOK := (utmupsValidateOK float_of_str _to3zBhp _Bands).

(** *** [_en] *)

Lemma _en_in_range U Error en lo hi ename q :
  tofloat en = Ok (Fin q) ->
  (inject_Z lo <= q <= inject_Z hi)%Q ->
  en_check U Error en lo hi ename = Ok tt.
Proof.
  intros Hf Hq. unfold _en. rewrite Hf.
  apply in_range_iff in Hq. now rewrite Hq.
Qed.

Lemma _en_out_of_range U Error en lo hi ename q :
  tofloat en = Ok (Fin q) ->
  ~ (inject_Z lo <= q <= inject_Z hi)%Q ->
  en_check U Error en lo hi ename = Raise (range_error Error U ename en lo hi).
Proof.
  intros Hf Hq. unfold _en. rewrite Hf.
  apply not_in_range_iff in Hq. now rewrite Hq.
Qed.

(** A NaN or an infinity is in no range. *)
Lemma _en_not_finite U Error en lo hi ename x :
  tofloat en = Ok x ->
  (forall q, x <> Fin q) ->
  en_check U Error en lo hi ename = Raise (range_error Error U ename en lo hi).
Proof.
  intros Hf Hx. unfold _en. rewrite Hf.
  destruct x as [q| | |]; simpl; try reflexivity.
  now elim (Hx q).
Qed.

Lemma _en_unconvertible U Error en lo hi ename x :
  tofloat en = Raise x ->
  caught x [TypeError; ValueError] = true ->
  en_check U Error en lo hi ename = Raise (range_error Error U ename en lo hi).
Proof.
  intros Hf Hx. unfold _en. now rewrite Hf, Hx.
Qed.

Lemma _en_propagates U Error en lo hi ename x :
  tofloat en = Raise x ->
  caught x [TypeError; ValueError] = false ->
  en_check U Error en lo hi ename = Raise x.
Proof.
  intros Hf Hx. unfold _en. now rewrite Hf, Hx.
Qed.

(** Whatever [_en] raises has positional arguments. *)
Lemma _en_raises_args U Error en lo hi ename x :
  en_check U Error en lo hi ename = Raise x -> exn_args x <> [].
Proof.
  unfold _en, py_float.
  destruct en as [|z|f|s]; simpl.
  - intros [= <-]; discriminate.
  - destruct (Z.abs z <? _).
    + destruct (_ && _); intros [= <-]; discriminate.
    + simpl. intros [= <-]; discriminate.
  - destruct (_ && _); intros [= <-]; discriminate.
  - destruct (float_of_str s).
    + destruct (_ && _); intros [= <-]; discriminate.
    + simpl. intros [= <-]; discriminate.
Qed.

(** [float] raises a [TypeError] for [None] and a [ValueError] for
    a string that is no number; both are caught in [_en]. *)
Lemma py_float_None :
  exists x, tofloat PyNone = Raise x /\ exn_class x = TypeError
            /\ caught x [TypeError; ValueError] = true.
Proof. eexists; repeat split. Qed.

Lemma py_float_bad_str s :
  float_of_str s = None ->
  exists x, tofloat (PyStr s) = Raise x /\ exn_class x = ValueError
            /\ caught x [TypeError; ValueError] = true.
Proof. intros H. unfold py_float. rewrite H. eexists; repeat split. Qed.

Lemma py_float_overflow z :
  2 ^ 1024 - 2 ^ 970 <= Z.abs z ->
  exists x, tofloat (PyInt z) = Raise x /\ exn_class x = OverflowError
            /\ caught x [TypeError; ValueError] = false
            /\ caught x [UTMUPSError] = false.
Proof.
  intros H. unfold py_float.
  destruct (Z.ltb_spec (Z.abs z) (2 ^ 1024 - 2 ^ 970)); [lia|].
  eexists; repeat split.
Qed.

(** *** The steps of [utmupsValidate] *)

Lemma utmupsValidate_not_a_coord coord falsed MGRS Error x :
  coord_fields coord falsed Error = Raise x ->
  validate coord falsed MGRS Error = Raise x
  /\ x = _IsnotError Error coord coord_class_names.
Proof.
  intros H. unfold utmupsValidate. rewrite H. split; [reflexivity|].
  destruct coord; simpl in H; congruence.
Qed.

Lemma utmupsValidate_not_normalized coord falsed MGRS Error zone hemi e n band enMM x :
  coord_fields coord falsed Error = Ok (zone, hemi, e, n, band, enMM) ->
  _to3zBhp zone band hemi = Raise x ->
  validate coord falsed MGRS Error = Raise x.
Proof.
  intros H1 H2. unfold utmupsValidate. rewrite H1; simpl. now rewrite H2.
Qed.

Lemma utmupsValidate_inconsistent coord falsed MGRS Error zone hemi e n band enMM z B h :
  coord_fields coord falsed Error = Ok (zone, hemi, e, n, band, enMM) ->
  _to3zBhp zone band hemi = Ok (z, B, h) ->
  refused z B h = true ->
  validate coord falsed MGRS Error
  = Raise (zone_error Error (range_name MGRS (zone_family z)) z B h zone band hemi).
Proof.
  intros H1 H2 H3. unfold utmupsValidate.
  rewrite H1; simpl. rewrite H2; simpl. now rewrite H3.
Qed.

Lemma utmupsValidate_consistent coord falsed MGRS Error zone hemi e n band enMM z B h :
  coord_fields coord falsed Error = Ok (zone, hemi, e, n, band, enMM) ->
  _to3zBhp zone band hemi = Ok (z, B, h) ->
  refused z B h = false ->
  validate coord falsed MGRS Error
  = let M := family_MinMax (zone_family z) in
    let U := range_name MGRS (zone_family z) in
    let s := margin MGRS in
    let i := str_find _NS_ h in
    if enMM then
      en_check U Error e (item (eMin M) i - s) (item (eMax M) i + s) _easting_ ;;;
      en_check U Error n (item (nMin M) i - s) (item (nMax M) i + s) _northing_
    else Ok tt.
Proof.
  intros H1 H2 H3. unfold utmupsValidate.
  rewrite H1; simpl. rewrite H2; simpl. now rewrite H3.
Qed.

(** The test made on the normalized zone, band and hemisphere. *)
Lemma inconsistent_iff z B h :
  refused z B h = true
  <-> str_find _NS_ h < 0 \/ z < _UTMUPS_ZONE_MIN \/ z > _UTMUPS_ZONE_MAX
      \/ _Bands (zone_family z) B = false.
Proof.
  unfold inconsistent.
  rewrite !orb_true_iff, negb_true_iff, !Z.ltb_lt, Z.gtb_ltb, Z.ltb_lt.
  intuition lia.
Qed.

Lemma consistent_iff z B h :
  refused z B h = false
  <-> 0 <= str_find _NS_ h /\ _UTMUPS_ZONE_MIN <= z <= _UTMUPS_ZONE_MAX
      /\ _Bands (zone_family z) B = true.
Proof.
  destruct (refused z B h) eqn:E.
  - apply inconsistent_iff in E. split; [discriminate|].
    intros (H1 & H2 & H3). rewrite H3 in E. intuition (lia || discriminate).
  - split; [intros _|reflexivity].
    assert (H : ~ (str_find _NS_ h < 0 \/ z < _UTMUPS_ZONE_MIN
                   \/ z > _UTMUPS_ZONE_MAX \/ _Bands (zone_family z) B = false)).
    { intros H. apply inconsistent_iff in H. congruence. }
    destruct (_Bands (zone_family z) B); intuition lia.
Qed.

(** A consistent hemisphere selects the first or the second entry
    of a table. *)
Lemma consistent_index z B h :
  refused z B h = false ->
  str_find _NS_ h = 0 \/ str_find _NS_ h = 1.
Proof.
  intros H. apply consistent_iff in H as [H _].
  destruct (str_find_NS_cases h) as [E|E]; [lia|exact E].
Qed.

(** Each of the four tables has its minimum below its maximum. *)
Lemma table_ordered (f : family) (i : Z) :
  i = 0 \/ i = 1 ->
  item (eMin (family_MinMax f)) i <= item (eMax (family_MinMax f)) i
  /\ item (nMin (family_MinMax f)) i <= item (nMax (family_MinMax f)) i.
Proof.
  intros [-> | ->]; destruct f; vm_compute; split; discriminate.
Qed.

(** What [utmupsValidate] does with a falsed coordinate that passed
    the test on zone, band and hemisphere. *)
Lemma utmupsValidate_falsed coord falsed MGRS Error zone hemi e n band z B h :
  coord_fields coord falsed Error = Ok (zone, hemi, e, n, band, true) ->
  _to3zBhp zone band hemi = Ok (z, B, h) ->
  refused z B h = false ->
  let M := family_MinMax (zone_family z) in
  let U := range_name MGRS (zone_family z) in
  let s := margin MGRS in
  let i := str_find _NS_ h in
  let elo := item (eMin M) i - s in
  let ehi := item (eMax M) i + s in
  let nlo := item (nMin M) i - s in
  let nhi := item (nMax M) i + s in
  let r := validate coord falsed MGRS Error in
  (forall qe qn,
      tofloat e = Ok (Fin qe) -> tofloat n = Ok (Fin qn) ->
      (inject_Z elo <= qe <= inject_Z ehi)%Q ->
      (inject_Z nlo <= qn <= inject_Z nhi)%Q ->
      r = Ok tt)
  /\ (forall qe,
         tofloat e = Ok (Fin qe) ->
         ~ (inject_Z elo <= qe <= inject_Z ehi)%Q ->
         r = Raise (range_error Error U _easting_ e elo ehi))
  /\ (forall qe qn,
         tofloat e = Ok (Fin qe) -> tofloat n = Ok (Fin qn) ->
         (inject_Z elo <= qe <= inject_Z ehi)%Q ->
         ~ (inject_Z nlo <= qn <= inject_Z nhi)%Q ->
         r = Raise (range_error Error U _northing_ n nlo nhi))
  /\ (forall x,
         tofloat e = Raise x -> caught x [TypeError; ValueError] = true ->
         r = Raise (range_error Error U _easting_ e elo ehi))
  /\ (forall qe x,
         tofloat e = Ok (Fin qe) ->
         (inject_Z elo <= qe <= inject_Z ehi)%Q ->
         tofloat n = Raise x -> caught x [TypeError; ValueError] = true ->
         r = Raise (range_error Error U _northing_ n nlo nhi))
  /\ (forall x,
         tofloat e = Raise x -> caught x [TypeError; ValueError] = false ->
         r = Raise x).
Proof.
  intros H1 H2 H3 M U s i elo ehi nlo nhi r.
  assert (Hr : r = (en_check U Error e elo ehi _easting_ ;;;
                    en_check U Error n nlo nhi _northing_)).
  { unfold r. now rewrite (utmupsValidate_consistent _ _ _ _ _ _ _ _ _ _ _ _ _ H1 H2 H3). }
  rewrite Hr. repeat split.
  - intros qe qn He Hn Re Rn.
    rewrite (_en_in_range _ _ _ _ _ _ _ He Re); simpl.
    apply (_en_in_range _ _ _ _ _ _ _ Hn Rn).
  - intros qe He Re.
    now rewrite (_en_out_of_range _ _ _ _ _ _ _ He Re).
  - intros qe qn He Hn Re Rn.
    rewrite (_en_in_range _ _ _ _ _ _ _ He Re); simpl.
    apply (_en_out_of_range _ _ _ _ _ _ _ Hn Rn).
  - intros x He Hx.
    now rewrite (_en_unconvertible _ _ _ _ _ _ _ He Hx).
  - intros qe x He Re Hn Hx.
    rewrite (_en_in_range _ _ _ _ _ _ _ He Re); simpl.
    apply (_en_unconvertible _ _ _ _ _ _ _ Hn Hx).
  - intros x He Hx.
    now rewrite (_en_propagates _ _ _ _ _ _ _ He Hx).
Qed.

(** *** Inclusive bounds *)

(** The bounds of the row that the zone and the hemisphere select
    are inclusive. *)
Lemma bounds_of_selected_row
    coord falsed Error zone hemi e n band z B h qe qn :
  coord_fields coord falsed Error = Ok (zone, hemi, e, n, band, true) ->
  _to3zBhp zone band hemi = Ok (z, B, h) ->
  refused z B h = false ->
  tofloat e = Ok (Fin qe) ->
  tofloat n = Ok (Fin qn) ->
  let M := family_MinMax (zone_family z) in
  let U := family_name (zone_family z) in
  let i := str_find _NS_ h in
  let elo := item (eMin M) i in
  let ehi := item (eMax M) i in
  let nlo := item (nMin M) i in
  let nhi := item (nMax M) i in
  let r := validate coord falsed false Error in
  ((qe == inject_Z elo \/ qe == inject_Z ehi)%Q ->
   (inject_Z nlo <= qn <= inject_Z nhi)%Q -> r = Ok tt)
  /\ ((qn == inject_Z nlo \/ qn == inject_Z nhi)%Q ->
      (inject_Z elo <= qe <= inject_Z ehi)%Q -> r = Ok tt)
  /\ ((qe == inject_Z elo - 1 \/ qe == inject_Z ehi + 1)%Q ->
      r = Raise (range_error Error U _easting_ e elo ehi))
  /\ ((qn == inject_Z nlo - 1 \/ qn == inject_Z nhi + 1)%Q ->
      (inject_Z elo <= qe <= inject_Z ehi)%Q ->
      r = Raise (range_error Error U _northing_ n nlo nhi))
  /\ (zone_family z = UPS -> h = "S" ->
      (qe == 1000000)%Q -> (qn == 3200001)%Q ->
      r = Raise (range_error Error _UPS_ _northing_ n 800000 3200000)).
Proof.
  intros H1 H2 H3 He Hn M U i elo ehi nlo nhi r.
  pose proof (utmupsValidate_falsed coord falsed false Error _ _ _ _ _ _ _ _ H1 H2 H3)
    as F.
  cbv zeta in F. unfold margin, range_name in F.
  repeat rewrite Z.sub_0_r in F. repeat rewrite Z.add_0_r in F.
  fold M U i in F. fold elo ehi nlo nhi r in F.
  destruct F as (Hok & Hbad_e & Hbad_n & _).
  destruct (table_ordered (zone_family z) i (consistent_index _ _ _ H3)) as [Oe On].
  fold M elo ehi nlo nhi in Oe, On.
  rewrite Zle_Qle in Oe, On.
  repeat split.
  - intros Eq Rn. apply (Hok qe qn He Hn); [|exact Rn].
    destruct Eq as [Eq|Eq]; rewrite Eq; split; lra.
  - intros Eq Re. apply (Hok qe qn He Hn); [exact Re|].
    destruct Eq as [Eq|Eq]; rewrite Eq; split; lra.
  - intros Eq. apply (Hbad_e qe He).
    destruct Eq as [Eq|Eq]; rewrite Eq; lra.
  - intros Eq Re. apply (Hbad_n qe qn He Hn Re).
    destruct Eq as [Eq|Eq]; rewrite Eq; lra.
  - intros Hf -> Eqe Eqn.
    unfold U, elo, ehi, nlo, nhi, M, i in *. rewrite Hf in *.
    change (str_find _NS_ "S") with 1 in *.
    apply (Hbad_n qe qn He Hn).
    + rewrite Eqe. vm_compute. split; discriminate.
    + rewrite Eqn. vm_compute. intros [_ C]. now apply C.
Qed.

(** C3: for a falsed coordinate of each of the four tables, with
    the ranges not widened, an easting or northing on the minimum
    or the maximum of its table is legal, and a value one unit
    below the minimum or above the maximum is refused with the
    error of the range that names the field.  The tables are, in
    tiles: UPS North (zone 0, 'N') [13, 27] for both fields, UPS
    South (zone 0, 'S') [8, 32] for both, UTM North (zones 1 to 60,
    'N') easting [1, 9] and northing [-90, 95], UTM South (zones 1
    to 60, 'S') easting [1, 9] and northing [10, 195].  A UPS South
    coordinate with easting 1,000,000 and northing 3,200,001 is
    refused for its northing, the maximum being 3,200,000. *)
Theorem bounds_inclusive_beyond_refused
    coord falsed Error zone hemi e n band z B h qe qn U elo ehi nlo nhi :
  coord_fields coord falsed Error = Ok (zone, hemi, e, n, band, true) ->
  _to3zBhp zone band hemi = Ok (z, B, h) ->
  tofloat e = Ok (Fin qe) ->
  tofloat n = Ok (Fin qn) ->
  (z = _UPS_ZONE /\ _Bands UPS B = true /\ h = "N" /\ U = "UPS"
   /\ elo = 13 * _MGRS_TILE /\ ehi = 27 * _MGRS_TILE
   /\ nlo = 13 * _MGRS_TILE /\ nhi = 27 * _MGRS_TILE)
  \/ (z = _UPS_ZONE /\ _Bands UPS B = true /\ h = "S" /\ U = "UPS"
      /\ elo = 8 * _MGRS_TILE /\ ehi = 32 * _MGRS_TILE
      /\ nlo = 8 * _MGRS_TILE /\ nhi = 32 * _MGRS_TILE)
  \/ (1 <= z <= 60 /\ _Bands UTM B = true /\ h = "N" /\ U = "UTM"
      /\ elo = 1 * _MGRS_TILE /\ ehi = 9 * _MGRS_TILE
      /\ nlo = -90 * _MGRS_TILE /\ nhi = 95 * _MGRS_TILE)
  \/ (1 <= z <= 60 /\ _Bands UTM B = true /\ h = "S" /\ U = "UTM"
      /\ elo = 1 * _MGRS_TILE /\ ehi = 9 * _MGRS_TILE
      /\ nlo = 10 * _MGRS_TILE /\ nhi = 195 * _MGRS_TILE) ->
  let r := validate coord falsed false Error in
  ((qe == inject_Z elo \/ qe == inject_Z ehi)%Q ->
   (inject_Z nlo <= qn <= inject_Z nhi)%Q -> r = Ok tt)
  /\ ((qn == inject_Z nlo \/ qn == inject_Z nhi)%Q ->
      (inject_Z elo <= qe <= inject_Z ehi)%Q -> r = Ok tt)
  /\ ((qe == inject_Z elo - 1 \/ qe == inject_Z ehi + 1)%Q ->
      r = Raise (range_error Error U _easting_ e elo ehi))
  /\ ((qn == inject_Z nlo - 1 \/ qn == inject_Z nhi + 1)%Q ->
      (inject_Z elo <= qe <= inject_Z ehi)%Q ->
      r = Raise (range_error Error U _northing_ n nlo nhi))
  /\ (z = _UPS_ZONE -> h = "S" ->
      (qe == 1000000)%Q -> (qn == 3200001)%Q ->
      r = Raise (range_error Error "UPS" _northing_ n 800000 3200000)).
Proof.
  intros H1 H2 He Hn Hrow r.
  assert (Hups : zone_family _UPS_ZONE = UPS) by reflexivity.
  assert (Hutm : 1 <= z <= 60 -> zone_family z = UTM).
  { intros Hz. unfold zone_family.
    destruct (Z.eqb_spec z _UPS_ZONE) as [E|_]; [unfold _UPS_ZONE in E; lia|reflexivity]. }
  assert (H3 : refused z B h = false).
  { apply consistent_iff.
    destruct Hrow as [(-> & HB & -> & _)|[(-> & HB & -> & _)|
                     [(Hz & HB & -> & _)|(Hz & HB & -> & _)]]];
      rewrite ?Hups, ?(Hutm Hz);
      (split; [vm_compute; discriminate|]);
      (split; [unfold _UTMUPS_ZONE_MIN, _UTMUPS_ZONE_MAX, _UPS_ZONE; lia|exact HB]). }
  pose proof (bounds_of_selected_row coord falsed Error zone hemi e n band z B h qe qn
                H1 H2 H3 He Hn) as F.
  cbv zeta in F. fold r in F.
  destruct Hrow as [(-> & _ & -> & -> & -> & -> & -> & ->)|
                   [(-> & _ & -> & -> & -> & -> & -> & ->)|
                   [(Hz & _ & -> & -> & -> & -> & -> & ->)|
                    (Hz & _ & -> & -> & -> & -> & -> & ->)]]];
    rewrite ?Hups, ?(Hutm Hz) in F;
    destruct F as (F1 & F2 & F3 & F4 & F5);
    (split; [exact F1|]); (split; [exact F2|]); (split; [exact F3|]);
    (split; [exact F4|]).
  - intros _ [=].
  - intros _ _. now apply F5.
  - intros E. unfold _UPS_ZONE in E. lia.
  - intros E. unfold _UPS_ZONE in E. lia.
Qed.

(** *** Zone, band and hemisphere *)

Lemma bind_raises {A B : Type} (m : result A) (k : A -> result B) (x : exn) :
  bind m k = Raise x -> m = Raise x \/ exists a, m = Ok a /\ k a = Raise x.
Proof.
  destruct m as [a|y]; simpl; intros H.
  - right. now exists a.
  - left. now injection H as ->.
Qed.

(** C4, amended: after normalization, [utmupsValidate] raises the
    configured error that describes the coordinate, zone, band and
    hemisphere exactly when the hemisphere is not found in "NS" (for
    a single letter: it is neither 'N' nor 'S'), or the zone is
    outside the global zone range, or the band is not in the band
    alphabet of the family selected by the zone; for a coordinate
    whose falsed flag is off this is the only refusal.  So a
    hemisphere letter such as 'E' always fails, a UPS band with a UTM
    zone fails, and a UTM band with the UPS sentinel zone fails. *)
Theorem zone_band_hemisphere_refusal
    coord falsed MGRS Error zone hemi e n band enMM z B h :
  coord_fields coord falsed Error = Ok (zone, hemi, e, n, band, enMM) ->
  _to3zBhp zone band hemi = Ok (z, B, h) ->
  (forall b, _Bands UPS b = true -> _Bands UTM b = false) ->
  let bad :=
    str_find _NS_ h < 0 \/ z < _UTMUPS_ZONE_MIN \/ z > _UTMUPS_ZONE_MAX
    \/ _Bands (zone_family z) B = false in
  let x := zone_error Error (range_name MGRS (zone_family z)) z B h zone band hemi in
  let r := validate coord falsed MGRS Error in
  (r = Raise x <-> bad)
  /\ exn_class x = Error
  /\ (enMM = false -> (r = Ok tt <-> ~ bad))
  /\ (forall c, h = String c EmptyString ->
        (str_find _NS_ h < 0 <-> c <> "N"%char /\ c <> "S"%char))
  /\ (h = "E" -> r = Raise x)
  /\ (1 <= z <= 60 -> _Bands UPS B = true -> r = Raise x)
  /\ (z = _UPS_ZONE -> _Bands UTM B = true -> r = Raise x).
Proof.
  intros H1 H2 Hdisj bad x r.
  assert (Hbad : bad -> r = Raise x).
  { intros Hb. apply inconsistent_iff in Hb.
    apply (utmupsValidate_inconsistent _ _ _ _ _ _ _ _ _ _ _ _ _ H1 H2 Hb). }
  assert (Hgood : ~ bad ->
            r = if enMM then
                  en_check (range_name MGRS (zone_family z)) Error e
                    (item (eMin (family_MinMax (zone_family z))) (str_find _NS_ h)
                     - margin MGRS)
                    (item (eMax (family_MinMax (zone_family z))) (str_find _NS_ h)
                     + margin MGRS) _easting_ ;;;
                  en_check (range_name MGRS (zone_family z)) Error n
                    (item (nMin (family_MinMax (zone_family z))) (str_find _NS_ h)
                     - margin MGRS)
                    (item (nMax (family_MinMax (zone_family z))) (str_find _NS_ h)
                     + margin MGRS) _northing_
                else Ok tt).
  { intros Hb.
    assert (Hc : refused z B h = false).
    { destruct (refused z B h) eqn:E; [|reflexivity].
      apply inconsistent_iff in E. now elim Hb. }
    apply (utmupsValidate_consistent _ _ _ _ _ _ _ _ _ _ _ _ _ H1 H2 Hc). }
  assert (Hdec : bad \/ ~ bad).
  { destruct (refused z B h) eqn:E.
    - left. now apply inconsistent_iff.
    - right. intros Hb. apply inconsistent_iff in Hb. congruence. }
  split; [split|]; [| exact Hbad |].
  { intros Hr. destruct Hdec as [Hb|Hb]; [exact Hb|exfalso].
    rewrite (Hgood Hb) in Hr. destruct enMM; [|discriminate].
    apply bind_raises in Hr as [Hr|(a & _ & Hr)];
      apply _en_raises_args in Hr; now apply Hr. }
  split; [reflexivity|].
  split.
  { intros ->. split.
    - intros Hr Hb. rewrite (Hbad Hb) in Hr. discriminate.
    - intros Hb. now rewrite (Hgood Hb). }
  split.
  { intros c ->. apply str_find_NS_letter. }
  split.
  { intros ->. apply Hbad. left. reflexivity. }
  split.
  - intros Hz HB. apply Hbad. do 3 right.
    unfold zone_family.
    destruct (Z.eqb_spec z _UPS_ZONE) as [E|_];
      [unfold _UPS_ZONE in E; lia | now apply Hdisj].
  - intros -> HB. apply Hbad. do 3 right.
    change (zone_family _UPS_ZONE) with UPS.
    destruct (_Bands UPS B) eqn:E; [|reflexivity].
    apply Hdisj in E. congruence.
Qed.

(** *** The falsed flag *)

(** C5: a coordinate whose effective falsed flag is off and whose
    zone, band and hemisphere pass is valid whatever its easting and
    northing are. *)
Theorem unfalsed_bounds_unchecked
    coord falsed MGRS Error zone hemi e n band z B h :
  coord_fields coord falsed Error = Ok (zone, hemi, e, n, band, false) ->
  _to3zBhp zone band hemi = Ok (z, B, h) ->
  refused z B h = false ->
  validate coord falsed MGRS Error = Ok tt.
Proof.
  intros H1 H2 H3.
  now rewrite (utmupsValidate_consistent _ _ _ _ _ _ _ _ _ _ _ _ _ H1 H2 H3).
Qed.

(** The instance with the fields of a tuple and a given falsed
    attribute. *)
Lemma coord_fields_of_tuple (t : Tup5.t) (f g : bool) (Error : eclass) :
  coord_fields (Tuple5 t) f Error
  = coord_fields
      (UtmInst (Obj.Make (Tup5.zone t) (Tup5.hemipole t) (Tup5.easting t)
                  (Tup5.northing t) (Tup5.band t) f PyNone)) g Error.
Proof. reflexivity. Qed.

(** *** Fields that are no numbers *)

(** C10: when the easting or northing of a falsed coordinate does
    not convert with [float] (a [TypeError] or [ValueError]), the
    conversion error is not propagated: [utmupsValidate] raises the
    configured error with the name of the field, its value and the
    range, the same error as for a number outside the range. *)
Theorem unconvertible_field_range_error
    coord falsed MGRS Error zone hemi e n band z B h :
  coord_fields coord falsed Error = Ok (zone, hemi, e, n, band, true) ->
  _to3zBhp zone band hemi = Ok (z, B, h) ->
  refused z B h = false ->
  let M := family_MinMax (zone_family z) in
  let U := range_name MGRS (zone_family z) in
  let i := str_find _NS_ h in
  let elo := item (eMin M) i - margin MGRS in
  let ehi := item (eMax M) i + margin MGRS in
  let nlo := item (nMin M) i - margin MGRS in
  let nhi := item (nMax M) i + margin MGRS in
  let r := validate coord falsed MGRS Error in
  let unconvertible v :=
    v = PyNone \/ exists s, v = PyStr s /\ float_of_str s = None in
  (forall x, tofloat e = Raise x ->
             isinstance x TypeError = true \/ isinstance x ValueError = true ->
             r = Raise (range_error Error U _easting_ e elo ehi))
  /\ (forall qe x, tofloat e = Ok (Fin qe) ->
                   (inject_Z elo <= qe <= inject_Z ehi)%Q ->
                   tofloat n = Raise x ->
                   isinstance x TypeError = true \/ isinstance x ValueError = true ->
                   r = Raise (range_error Error U _northing_ n nlo nhi))
  /\ (unconvertible e -> r = Raise (range_error Error U _easting_ e elo ehi))
  /\ (forall qe, tofloat e = Ok (Fin qe) ->
                 (inject_Z elo <= qe <= inject_Z ehi)%Q ->
                 unconvertible n ->
                 r = Raise (range_error Error U _northing_ n nlo nhi))
  /\ (forall qe, tofloat e = Ok (Fin qe) ->
                 ~ (inject_Z elo <= qe <= inject_Z ehi)%Q ->
                 r = Raise (range_error Error U _easting_ e elo ehi))
  /\ (forall qe qn, tofloat e = Ok (Fin qe) -> tofloat n = Ok (Fin qn) ->
                    (inject_Z elo <= qe <= inject_Z ehi)%Q ->
                    ~ (inject_Z nlo <= qn <= inject_Z nhi)%Q ->
                    r = Raise (range_error Error U _northing_ n nlo nhi))
  /\ (forall ename en lo hi,
        range_error Error U ename en lo hi
        = mkExn Error [Val (PyStr ename); Val en]
            [("txt", Val (PyStr (range_txt U lo hi)))]).
Proof.
  intros H1 H2 H3 M U i elo ehi nlo nhi r unconvertible.
  pose proof (utmupsValidate_falsed coord falsed MGRS Error _ _ _ _ _ _ _ _ H1 H2 H3)
    as F.
  cbv zeta in F. fold M U i in F. fold elo ehi nlo nhi r in F.
  destruct F as (_ & Hbad_e & Hbad_n & Hun_e & Hun_n & _).
  assert (Hc : forall x, isinstance x TypeError = true \/ isinstance x ValueError = true ->
                         caught x [TypeError; ValueError] = true).
  { intros x [Hx|Hx]; unfold caught; simpl; rewrite Hx; now rewrite ?orb_true_r. }
  assert (Hu : forall v, unconvertible v ->
                 exists x, tofloat v = Raise x /\ caught x [TypeError; ValueError] = true).
  { intros v [->|(s & -> & Hs)].
    - destruct py_float_None as (x & Hx & _ & Hc'). now exists x.
    - destruct (py_float_bad_str s Hs) as (x & Hx & _ & Hc'). now exists x. }
  repeat split.
  - intros x He Hx. apply (Hun_e x He (Hc x Hx)).
  - intros qe x He Re Hn Hx. apply (Hun_n qe x He Re Hn (Hc x Hx)).
  - intros He. destruct (Hu e He) as (x & Hx & Hcx). apply (Hun_e x Hx Hcx).
  - intros qe He Re Hn. destruct (Hu n Hn) as (x & Hx & Hcx).
    apply (Hun_n qe x He Re Hx Hcx).
  - exact Hbad_e.
  - exact Hbad_n.
Qed.

(** *** [utmupsValidateOK] *)

(** [utmupsValidateOK] returns [ok] when the validation passes,
    returns the error when it is a [UTMUPSError], and lets any other
    exception through. *)
Lemma utmupsValidateOK_cases {A : Type} (coord : pyobj) (falsed : bool) (ok : A) :
  match validate coord falsed false UTMUPSError with
  | Ok _ => validateOK coord falsed ok = Ok (IsOk A ok)
  | Raise x =>
      if isinstance x UTMUPSError
      then validateOK coord falsed ok = Ok (IsError A x)
      else validateOK coord falsed ok = Raise x
  end.
Proof.
  unfold utmupsValidateOK.
  destruct (validate coord falsed false UTMUPSError) as [u|x]; [reflexivity|].
  unfold caught; simpl. rewrite orb_false_r.
  now destruct (isinstance x UTMUPSError).
Qed.

(** An object that is no coordinate is answered with the error of
    the type mismatch. *)
Lemma utmupsValidateOK_type_mismatch {A : Type} (coord : pyobj) (falsed : bool) (ok : A) x :
  coord_fields coord falsed UTMUPSError = Raise x ->
  validateOK coord falsed ok
  = Ok (IsError A (_IsnotError UTMUPSError coord coord_class_names)).
Proof.
  intros H. destruct (utmupsValidate_not_a_coord coord falsed false _ _ H) as [Hv ->].
  unfold utmupsValidateOK. now rewrite Hv.
Qed.

(** An error of [_to3zBhp] that is no [UTMUPSError] is raised by
    [utmupsValidateOK] as well: the call in [utmupsValidate] passes
    no [Error]. *)
Lemma utmupsValidateOK_not_normalized {A : Type} coord falsed (ok : A)
    zone hemi e n band enMM x :
  coord_fields coord falsed UTMUPSError = Ok (zone, hemi, e, n, band, enMM) ->
  _to3zBhp zone band hemi = Raise x ->
  isinstance x UTMUPSError = false ->
  validateOK coord falsed ok = Raise x.
Proof.
  intros H1 H2 Hx. unfold utmupsValidateOK.
  rewrite (utmupsValidate_not_normalized _ _ _ _ _ _ _ _ _ _ _ H1 H2).
  now rewrite caught_one, Hx.
Qed.

(** An easting too large for a [float] makes [utmupsValidateOK]
    raise [OverflowError]. *)
Lemma utmupsValidateOK_overflow {A : Type} coord falsed (ok : A) zone hemi k n band z B h :
  coord_fields coord falsed UTMUPSError = Ok (zone, hemi, PyInt k, n, band, true) ->
  _to3zBhp zone band hemi = Ok (z, B, h) ->
  refused z B h = false ->
  2 ^ 1024 - 2 ^ 970 <= Z.abs k ->
  exists x, validateOK coord falsed ok = Raise x /\ exn_class x = OverflowError.
Proof.
  intros H1 H2 H3 Hk.
  destruct (py_float_overflow k Hk) as (x & Hx & Hcls & Hnc & Hnc').
  exists x. split; [|exact Hcls].
  destruct (utmupsValidate_falsed coord falsed false UTMUPSError _ _ _ _ _ _ _ _ H1 H2 H3)
    as (_ & _ & _ & _ & _ & Hp).
  unfold utmupsValidateOK. now rewrite (Hp x Hx Hnc), Hnc'.
Qed.

End ValidatorFacts.

(** ** Dispatch between the UTM and the UPS engine *)

Lemma try_except_caught {A : Type} (t : list call) (x : exn) (cs : list eclass)
    (h : exn -> traced A) :
  caught x cs = true ->
  try_except (t, Raise x) cs h = ((t ++ calls (h x))%list, outcome (h x)).
Proof.
  intros H. unfold try_except, calls, outcome. rewrite H. now destruct (h x).
Qed.

Lemma try_except_uncaught {A : Type} (t : list call) (x : exn) (cs : list eclass)
    (h : exn -> traced A) :
  caught x cs = false ->
  try_except (t, Raise x) cs h = (t, Raise x).
Proof. intros H. unfold try_except. now rewrite H. Qed.

Section DispatchFacts.

Variable utmZoneBand5 : pyval -> pyval -> bool -> result UtmUpsLatLon5Tuple.
Variable upsZoneBand5 : pyval -> pyval -> result UtmUpsLatLon5Tuple.
Variable parseUTM5 : string -> pyval -> option pyclass -> string -> result pyobj.
Variable parseUPS5 : string -> pyval -> option pyclass -> string -> result pyobj.
Variable exn_str : exn -> string.
Variable _to3zBhp : pyval -> pyval -> pyval -> result (Z * string * string).
Variable new : pyclass -> new_args -> result pyobj.

Local Abbreviation classify := (utmupsZoneBand5 utmZoneBand5 upsZoneBand5).
Local Abbreviation parse := (parseUTMUPS5 parseUTM5 parseUPS5 exn_str).
Local Abbreviation make := (UtmUps _to3zBhp new).

(** *** The classifier *)

Lemma utmupsZoneBand5_utm lat lon cmoff r :
  utmZoneBand5 lat lon cmoff = Ok r ->
  classify lat lon cmoff = ([Call_utmZoneBand5 lat lon cmoff], Ok r).
Proof. intros H. unfold utmupsZoneBand5, try_except, invoke. now rewrite H. Qed.

Lemma utmupsZoneBand5_propagates lat lon cmoff x :
  utmZoneBand5 lat lon cmoff = Raise x ->
  isinstance x RangeError = false ->
  classify lat lon cmoff = ([Call_utmZoneBand5 lat lon cmoff], Raise x).
Proof.
  intros H Hx. unfold utmupsZoneBand5, try_except, invoke, caught.
  rewrite H; simpl. now rewrite Hx.
Qed.

Lemma utmupsZoneBand5_ups lat lon cmoff x :
  utmZoneBand5 lat lon cmoff = Raise x ->
  isinstance x RangeError = true ->
  classify lat lon cmoff
  = ([Call_utmZoneBand5 lat lon cmoff; Call_upsZoneBand5 lat lon],
     upsZoneBand5 lat lon).
Proof.
  intros H Hx. unfold utmupsZoneBand5, try_except, invoke, caught.
  rewrite H; simpl. now rewrite Hx.
Qed.

(** C2, amended: [utmupsZoneBand5] calls [utmZoneBand5] first, and
    falls back to [upsZoneBand5] exactly when [utmZoneBand5] raises
    a [RangeError], be it for a latitude outside the UTM bands or
    for a latitude or longitude outside the valid range; any other
    error, such as the [ValueError] of an invalid latitude or
    longitude, reaches the caller unchanged and without a call of
    [upsZoneBand5]. *)
Theorem utmupsZoneBand5_fallback (lat lon : pyval) (cmoff : bool) :
  let m := classify lat lon cmoff in
  (exists rest, calls m = Call_utmZoneBand5 lat lon cmoff :: rest)
  /\ (In (Call_upsZoneBand5 lat lon) (calls m)
      <-> exists x, utmZoneBand5 lat lon cmoff = Raise x
                    /\ isinstance x RangeError = true)
  /\ (forall r, utmZoneBand5 lat lon cmoff = Ok r ->
                m = ([Call_utmZoneBand5 lat lon cmoff], Ok r))
  /\ (forall x, utmZoneBand5 lat lon cmoff = Raise x ->
                isinstance x RangeError = true ->
                m = ([Call_utmZoneBand5 lat lon cmoff; Call_upsZoneBand5 lat lon],
                     upsZoneBand5 lat lon))
  /\ (forall x, utmZoneBand5 lat lon cmoff = Raise x ->
                isinstance x RangeError = false ->
                m = ([Call_utmZoneBand5 lat lon cmoff], Raise x))
  /\ (forall x, utmZoneBand5 lat lon cmoff = Raise x ->
                exn_class x = ValueError \/ exn_class x = TypeError ->
                m = ([Call_utmZoneBand5 lat lon cmoff], Raise x)).
Proof.
  intros m.
  assert (Hutm := utmupsZoneBand5_utm lat lon cmoff).
  assert (Hups := utmupsZoneBand5_ups lat lon cmoff).
  assert (Hpro := utmupsZoneBand5_propagates lat lon cmoff).
  fold m in Hutm, Hups, Hpro.
  split; [|split; [|split; [exact Hutm|split; [exact Hups|split; [exact Hpro|]]]]].
  - destruct (utmZoneBand5 lat lon cmoff) as [r|x] eqn:E.
    + rewrite (Hutm r eq_refl). now eexists.
    + destruct (isinstance x RangeError) eqn:Hx.
      * rewrite (Hups x eq_refl Hx). now eexists.
      * rewrite (Hpro x eq_refl Hx). now eexists.
  - destruct (utmZoneBand5 lat lon cmoff) as [r|x] eqn:E.
    + rewrite (Hutm r eq_refl); simpl. split.
      * intros [H|[]]; discriminate.
      * intros (x & Hx & _); discriminate.
    + destruct (isinstance x RangeError) eqn:Hx.
      * rewrite (Hups x eq_refl Hx); simpl. split; [|auto].
        intros _. now exists x.
      * rewrite (Hpro x eq_refl Hx); simpl. split.
        -- intros [H|[]]; discriminate.
        -- intros (y & [= <-] & Hy). congruence.
  - intros x E Hc. apply (Hpro x E).
    unfold isinstance. destruct Hc as [-> | ->]; reflexivity.
Qed.

(** *** The parser *)

Lemma parseUTMUPS5_utm s datum U P name u :
  parseUTM5 s datum U name = Ok u ->
  parse s datum U P name = ([Call_parseUTM5 s datum U name], Ok u).
Proof. intros H. unfold parseUTMUPS5, try_except, invoke. now rewrite H. Qed.

Lemma parseUTMUPS5_ups s datum U P name x u :
  parseUTM5 s datum U name = Raise x ->
  isinstance x UTMError = true ->
  parseUPS5 s datum P name = Ok u ->
  parse s datum U P name
  = ([Call_parseUTM5 s datum U name; Call_parseUPS5 s datum P name], Ok u).
Proof.
  intros H Hx H'. unfold parseUTMUPS5, try_except, invoke, caught.
  rewrite H; simpl. rewrite Hx; simpl. now rewrite H'.
Qed.

Lemma parseUTMUPS5_fails s datum U P name x y :
  parseUTM5 s datum U name = Raise x ->
  isinstance x UTMError = true ->
  parseUPS5 s datum P name = Raise y ->
  caught y [UTMError; UPSError] = true ->
  parse s datum U P name
  = ([Call_parseUTM5 s datum U name; Call_parseUPS5 s datum P name],
     Raise (mkExn UTMUPSError []
              [("strUTMUPS", Val (PyStr s)); ("txt", Val (PyStr (exn_str y)))])).
Proof.
  intros H Hx H' Hy. unfold parseUTMUPS5, invoke.
  rewrite H, H'.
  rewrite (try_except_caught _ x [UTMError]) by now rewrite caught_one.
  cbn [calls outcome fst snd app].
  now rewrite (try_except_caught _ y) by exact Hy.
Qed.

(** An error of the UTM parser that is no [UTMError] is not
    answered by the UPS parser. *)
Lemma parseUTMUPS5_other s datum U P name x :
  parseUTM5 s datum U name = Raise x ->
  caught x [UTMError; UPSError] = false ->
  parse s datum U P name = ([Call_parseUTM5 s datum U name], Raise x).
Proof.
  intros H Hx. unfold parseUTMUPS5, try_except, invoke.
  rewrite H.
  assert (Hu : caught x [UTMError] = false).
  { unfold caught in *; simpl in *. apply orb_false_iff in Hx as [-> _]. reflexivity. }
  now rewrite Hu, Hx.
Qed.

(** *** The class-like function *)

Lemma UtmUps_class_Ups (z : Z) : UtmUps_class z = Ups <-> z = _UPS_ZONE.
Proof.
  unfold UtmUps_class, py_in, _UPS_ZONE; simpl.
  rewrite orb_false_r.
  destruct (Z.eqb_spec z 0); split; congruence.
Qed.

Lemma UtmUps_class_Utm (z : Z) : UtmUps_class z = Utm <-> z <> _UPS_ZONE.
Proof.
  rewrite <- UtmUps_class_Ups. destruct (UtmUps_class z); split; congruence.
Qed.

(** C8: [UtmUps] normalizes the zone, band and hemisphere and then
    calls [Ups] if and only if the normalized zone is the UPS
    sentinel, and [Utm] otherwise, with the normalized zone, band
    and hemisphere. *)
Theorem UtmUps_delegates
    (zone hemipole easting northing band datum : pyval) (falsed : bool)
    (name : string) (z : Z) (B hp : string) :
  _to3zBhp zone band hemipole = Ok (z, B, hp) ->
  let a := mkNew z hp easting northing B datum falsed name in
  let m := make zone hemipole easting northing band datum falsed name in
  (z = _UPS_ZONE -> m = ([Call_new Ups a], new Ups a))
  /\ (z <> _UPS_ZONE -> m = ([Call_new Utm a], new Utm a))
  /\ (In (Call_new Ups a) (calls m) <-> z = _UPS_ZONE)
  /\ (In (Call_new Utm a) (calls m) <-> z <> _UPS_ZONE)
  /\ (py_in (PyInt z) [PyInt _UPS_ZONE; PyStr _UPS_ZONE_STR] = true
      <-> z = _UPS_ZONE).
Proof.
  intros H a m.
  assert (Hm : m = ([Call_new (UtmUps_class z) a], new (UtmUps_class z) a)).
  { unfold m, UtmUps, tbind, lift, invoke. rewrite H. reflexivity. }
  rewrite Hm; simpl.
  pose proof (UtmUps_class_Ups z) as Hups.
  pose proof (UtmUps_class_Utm z) as Hutm.
  split; [|split; [|split; [|split]]].
  - intros Hz. apply Hups in Hz. now rewrite Hz.
  - intros Hz. apply Hutm in Hz. now rewrite Hz.
  - rewrite <- Hups. split.
    + intros [[= ->]|[]]. reflexivity.
    + intros ->. now left.
  - rewrite <- Hutm. split.
    + intros [[= ->]|[]]. reflexivity.
    + intros ->. now left.
  - clear. unfold py_in, _UPS_ZONE; simpl.
    rewrite orb_false_r. apply Z.eqb_eq.
Qed.

(** When the normalization fails, no class is called. *)
Lemma UtmUps_not_normalized
    (zone hemipole easting northing band datum : pyval) (falsed : bool)
    (name : string) (x : exn) :
  _to3zBhp zone band hemipole = Raise x ->
  make zone hemipole easting northing band datum falsed name = ([], Raise x).
Proof. intros H. unfold UtmUps, tbind, lift. now rewrite H. Qed.

End DispatchFacts.

(** ** The functions on concrete coordinates

    From here on the collaborators are the models. *)

Lemma Bands_model_disjoint (b : string) :
  Bands_model UPS b = true -> Bands_model UTM b = false.
Proof.
  unfold Bands_model, ups_Bands; simpl.
  rewrite !orb_true_iff, !String.eqb_eq.
  intros [->|[->|[->|[->|H]]]]; try reflexivity; discriminate.
Qed.

(** The UTM North coordinate at the central meridian of zone 31
    passes. *)
Example validate_utm_north :
  utmupsValidate float_of_decimal to3zBhp_model Bands_model
    (Tuple5 (Tup5.Make (PyInt 31) (PyStr "N") (PyInt 500000) (PyInt 4649776)
               (PyStr "U")))
    true false UTMUPSError
  = Ok tt.
Proof. reflexivity. Qed.

(** A plain pair of numbers is no coordinate. *)
Example validate_plain_pair :
  utmupsValidate float_of_decimal to3zBhp_model Bands_model
    (PlainTuple [PyInt 500000; PyInt 4649776]) true false UTMUPSError
  = Raise (mkExn UTMUPSError
             [Val (PyStr "Utm"); Val (PyStr "Ups"); Val (PyStr "UtmUps5Tuple");
              Val (PyStr "UtmUps8Tuple")]
             [("coord", PlainTuple [PyInt 500000; PyInt 4649776])]).
Proof. reflexivity. Qed.

(** For a tuple the parameter [falsed] decides, for an instance its
    attribute. *)
Example falsed_parameter_on_tuple :
  utmupsValidate float_of_decimal to3zBhp_model Bands_model
    (Tuple5 (Tup5.Make (PyInt 31) (PyStr "N") (PyInt 0) (PyInt 0) (PyStr "U")))
    false false UTMUPSError = Ok tt
  /\ utmupsValidate float_of_decimal to3zBhp_model Bands_model
       (Tuple5 (Tup5.Make (PyInt 31) (PyStr "N") (PyInt 0) (PyInt 0) (PyStr "U")))
       true false UTMUPSError
     = Raise (range_error UTMUPSError _UTM_ _easting_ (PyInt 0) 100000 900000)
  /\ utmupsValidate float_of_decimal to3zBhp_model Bands_model
       (UtmInst (Obj.Make (PyInt 31) (PyStr "N") (PyInt 0) (PyInt 0) (PyStr "U")
                   false PyNone))
       true false UTMUPSError = Ok tt.
Proof. repeat split. Qed.

(** The witness of C3: the UPS South coordinate with easting
    1,000,000 and northing 3,200,001. *)
Lemma bounds_inclusive_beyond_refused_witness :
  utmupsValidate float_of_decimal to3zBhp_model Bands_model
    (Tuple5 (Tup5.Make (PyInt 0) (PyStr "S") (PyInt 1000000) (PyInt 3200001)
               (PyStr "A")))
    true false UTMUPSError
  = Raise (range_error UTMUPSError _UPS_ _northing_ (PyInt 3200001) 800000 3200000).
Proof.
  apply (bounds_inclusive_beyond_refused float_of_decimal to3zBhp_model Bands_model
           (Tuple5 (Tup5.Make (PyInt 0) (PyStr "S") (PyInt 1000000) (PyInt 3200001)
                      (PyStr "A")))
           true UTMUPSError (PyInt 0) (PyStr "S") (PyInt 1000000) (PyInt 3200001)
           (PyStr "A") 0 "A" "S" (inject_Z 1000000) (inject_Z 3200001)
           "UPS" (8 * _MGRS_TILE) (32 * _MGRS_TILE) (8 * _MGRS_TILE) (32 * _MGRS_TILE)
           eq_refl eq_refl eq_refl eq_refl);
    try reflexivity.
  right. left. repeat split.
Defined.

(** C4, as worded, does not hold: a UPS South coordinate with a
    legal zone, band and hemisphere is refused for its northing. *)
Lemma refusal_not_only_for_zone_band_hemisphere :
  ~ (forall coord falsed MGRS Error zone hemi e n band enMM z B h,
        coord_fields coord falsed Error = Ok (zone, hemi, e, n, band, enMM) ->
        to3zBhp_model zone band hemi = Ok (z, B, h) ->
        ((exists x, utmupsValidate float_of_decimal to3zBhp_model Bands_model
                      coord falsed MGRS Error = Raise x)
         <-> (h <> "N" /\ h <> "S") \/ z < _UTMUPS_ZONE_MIN \/ z > _UTMUPS_ZONE_MAX
             \/ Bands_model (zone_family z) B = false)).
Proof.
  intros H.
  specialize (H (Tuple5 (Tup5.Make (PyInt 0) (PyStr "S") (PyInt 1000000)
                           (PyInt 3200001) (PyStr "A")))
                true false UTMUPSError _ _ _ _ _ _ 0 "A" "S" eq_refl eq_refl).
  destruct H as [H _].
  destruct H as [[_ H]|[H|[H|H]]].
  - eexists. reflexivity.
  - now apply H.
  - unfold _UTMUPS_ZONE_MIN in H. lia.
  - unfold _UTMUPS_ZONE_MAX in H. lia.
  - discriminate H.
Qed.

(** The witness of C4: the hemisphere letter 'E'. *)
Lemma zone_band_hemisphere_refusal_witness :
  utmupsValidate float_of_decimal to3zBhp_model Bands_model
    (Tuple5 (Tup5.Make (PyInt 31) (PyStr "E") (PyInt 500000) (PyInt 4649776)
               (PyStr "U")))
    false false UTMUPSError
  = Raise (zone_error UTMUPSError _UTM_ 31 "U" "E" (PyInt 31) (PyStr "U") (PyStr "E")).
Proof.
  exact (proj1 (proj2 (proj2 (proj2 (proj2
           (zone_band_hemisphere_refusal float_of_decimal to3zBhp_model Bands_model
              (Tuple5 (Tup5.Make (PyInt 31) (PyStr "E") (PyInt 500000)
                         (PyInt 4649776) (PyStr "U")))
              false false UTMUPSError (PyInt 31) (PyStr "E") (PyInt 500000)
              (PyInt 4649776) (PyStr "U") false 31 "U" "E"
              eq_refl eq_refl Bands_model_disjoint))))) eq_refl).
Defined.

(** The witness of C5: an easting and a northing far outside the
    UTM ranges, not falsed. *)
Lemma unfalsed_bounds_unchecked_witness :
  utmupsValidate float_of_decimal to3zBhp_model Bands_model
    (Tuple5 (Tup5.Make (PyInt 31) (PyStr "N") (PyInt 99999999) (PyInt (-99999999))
               (PyStr "U")))
    false false UTMUPSError
  = Ok tt.
Proof.
  apply (unfalsed_bounds_unchecked float_of_decimal to3zBhp_model Bands_model
           (Tuple5 (Tup5.Make (PyInt 31) (PyStr "N") (PyInt 99999999)
                      (PyInt (-99999999)) (PyStr "U")))
           false false UTMUPSError (PyInt 31) (PyStr "N") (PyInt 99999999)
           (PyInt (-99999999)) (PyStr "U") 31 "U" "N"
           eq_refl eq_refl eq_refl).
Defined.

(** The witness of C10: an easting that is no number. *)
Lemma unconvertible_field_range_error_witness :
  utmupsValidate float_of_decimal to3zBhp_model Bands_model
    (Tuple5 (Tup5.Make (PyInt 31) (PyStr "N") (PyStr "abc") (PyInt 0) (PyStr "U")))
    true false UTMUPSError
  = Raise (range_error UTMUPSError _UTM_ _easting_ (PyStr "abc") 100000 900000).
Proof.
  apply (unconvertible_field_range_error float_of_decimal to3zBhp_model Bands_model
           (Tuple5 (Tup5.Make (PyInt 31) (PyStr "N") (PyStr "abc") (PyInt 0)
                      (PyStr "U")))
           true false UTMUPSError (PyInt 31) (PyStr "N") (PyStr "abc") (PyInt 0)
           (PyStr "U") 31 "U" "N" eq_refl eq_refl eq_refl).
  right. exists "abc". split; reflexivity.
Defined.

(** C6: [utmupsValidateOK] raises for the falsed tuple
    [UtmUps5Tuple(31, 'N', 10**400, 0, 'U')]: the [OverflowError] of
    [float] is neither caught in [_en] nor a [UTMUPSError]. *)
Theorem utmupsValidateOK_raises_OverflowError :
  utmupsValidateOK float_of_decimal to3zBhp_model Bands_model
    (Tuple5 (Tup5.Make (PyInt 31) (PyStr "N") (PyInt (10 ^ 400)) (PyInt 0)
               (PyStr "U")))
    true true
  = Raise (mkExn OverflowError
             [Val (PyStr "int too large to convert to float")] []).
Proof. vm_compute. reflexivity. Qed.

(** The errors that are [UTMUPSError]s are returned. *)
Example utmupsValidateOK_returns_error :
  utmupsValidateOK float_of_decimal to3zBhp_model Bands_model
    (PlainTuple [PyInt 500000; PyInt 4649776]) false true
  = Ok (IsError bool
          (_IsnotError UTMUPSError (PlainTuple [PyInt 500000; PyInt 4649776])
             coord_class_names))
  /\ utmupsValidateOK float_of_decimal to3zBhp_model Bands_model
       (Tuple5 (Tup5.Make (PyInt 0) (PyStr "S") (PyInt 1000000) (PyInt 3200001)
                  (PyStr "A")))
       true true
     = Ok (IsError bool
             (range_error UTMUPSError _UPS_ _northing_ (PyInt 3200001)
                800000 3200000))
  /\ utmupsValidateOK float_of_decimal to3zBhp_model Bands_model
       (Tuple5 (Tup5.Make (PyInt 31) (PyStr "N") (PyInt 500000) (PyInt 4649776)
                  (PyStr "U")))
       true true
     = Ok (IsOk bool true).
Proof. repeat split. Qed.

(** The examples of the classifier: 84.5N is UPS North, and 45N 9E
    is in UTM zone 32, band 'T'. *)
Example classify_examples :
  utmupsZoneBand5 (utmZoneBand5_model false) (upsZoneBand5_model false)
    (PyFloat (Fin (169 # 2))) (PyInt 0) false
  = ([Call_utmZoneBand5 (PyFloat (Fin (169 # 2))) (PyInt 0) false;
      Call_upsZoneBand5 (PyFloat (Fin (169 # 2))) (PyInt 0)],
     Ok (mkLatLon5 0 "Z" "N" (169 # 2) (inject_Z 0)))
  /\ utmupsZoneBand5 (utmZoneBand5_model false) (upsZoneBand5_model false)
       (PyInt 45) (PyInt 9) false
     = ([Call_utmZoneBand5 (PyInt 45) (PyInt 9) false],
        Ok (mkLatLon5 32 "T" "N" (inject_Z 45) (inject_Z 9))).
Proof. split; reflexivity. Qed.

(** C2, as worded, does not hold: with strict range checking, the
    latitude 100 is no valid angle, yet the UPS classifier is
    called after the UTM classifier has refused it. *)
Lemma utmupsZoneBand5_fallback_on_domain_error :
  ~ (forall lat lon cmoff,
        In (Call_upsZoneBand5 lat lon)
           (calls (utmupsZoneBand5 (utmZoneBand5_model true) (upsZoneBand5_model true)
                     lat lon cmoff)) ->
        exists a, parse_degrees true 90 lat = Ok a
                  /\ ~ (inject_Z _UTM_LAT_MIN <= a < inject_Z _UTM_LAT_MAX)%Q).
Proof.
  intros H.
  destruct (H (PyInt 100) (PyInt 0) false) as (a & Ha & _).
  - right. left. reflexivity.
  - discriminate Ha.
Qed.

(** The error of a latitude outside the valid range and the error of
    a latitude outside the UTM bands have the same class. *)
Example range_errors_same_class :
  (exists x, utmZoneBand5_model true (PyInt 100) (PyInt 0) false = Raise x
             /\ exn_class x = RangeError)
  /\ (exists x, utmZoneBand5_model true (PyInt 85) (PyInt 0) false = Raise x
                /\ exn_class x = RangeError)
  /\ (exists x, utmZoneBand5_model true (PyStr "north") (PyInt 0) false = Raise x
                /\ exn_class x = ValueError).
Proof. repeat split; eexists; split; reflexivity. Qed.

(** A string that neither parser accepts. *)
Example parseUTMUPS5_both_fail :
  parseUTMUPS5 parseUTM5_model parseUPS5_model exn_str_model
    "61 N 448251 5411932" PyNone (Some Utm) (Some Ups) NN
  = ([Call_parseUTM5 "61 N 448251 5411932" PyNone (Some Utm) NN;
      Call_parseUPS5 "61 N 448251 5411932" PyNone (Some Ups) NN],
     Raise (mkExn UTMUPSError []
              [("strUTMUPS", Val (PyStr "61 N 448251 5411932"));
               ("txt", Val (PyStr "strUPS (61 N 448251 5411932)"))])).
Proof. reflexivity. Qed.

Example parseUTMUPS5_examples :
  calls (parseUTMUPS5 parseUTM5_model parseUPS5_model exn_str_model
           "31 N 448251 5411932" PyNone (Some Utm) (Some Ups) NN)
  = [Call_parseUTM5 "31 N 448251 5411932" PyNone (Some Utm) NN]
  /\ calls (parseUTMUPS5 parseUTM5_model parseUPS5_model exn_str_model
              "00B S 2000000 2000000" PyNone (Some Utm) (Some Ups) NN)
     = [Call_parseUTM5 "00B S 2000000 2000000" PyNone (Some Utm) NN;
        Call_parseUPS5 "00B S 2000000 2000000" PyNone (Some Ups) NN].
Proof. split; reflexivity. Qed.

(** The witness of C8: the zone "00" with the band 'Z'. *)
Lemma UtmUps_delegates_witness :
  UtmUps to3zBhp_model new_model (PyStr "00") (PyStr "N") (PyInt 2000000)
    (PyInt 2000000) (PyStr "Z") PyNone true NN
  = ([Call_new Ups (mkNew 0 "N" (PyInt 2000000) (PyInt 2000000) "Z" PyNone true NN)],
     new_model Ups (mkNew 0 "N" (PyInt 2000000) (PyInt 2000000) "Z" PyNone true NN)).
Proof.
  apply (UtmUps_delegates to3zBhp_model new_model (PyStr "00") (PyStr "N")
           (PyInt 2000000) (PyInt 2000000) (PyStr "Z") PyNone true NN 0 "Z" "N"
           eq_refl).
  reflexivity.
Defined.

Example UtmUps_examples :
  calls (UtmUps to3zBhp_model new_model (PyStr "31U") (PyStr "North")
           (PyInt 500000) (PyInt 4649776) (PyStr NN) PyNone true NN)
  = [Call_new Utm (mkNew 31 "N" (PyInt 500000) (PyInt 4649776) "U" PyNone true NN)]
  /\ calls (UtmUps to3zBhp_model new_model (PyInt 0) (PyStr "S")
              (PyInt 2000000) (PyInt 2000000) (PyStr "b") PyNone true NN)
     = [Call_new Ups (mkNew 0 "S" (PyInt 2000000) (PyInt 2000000) "B" PyNone true NN)].
Proof. split; reflexivity. Qed.

(** * Further properties *)

(** ** More on the validator *)

Section ValidatorMore.

Variable float_of_str : string -> option pyfloat.
Variable _to3zBhp : pyval -> pyval -> pyval -> result (Z * string * string).
Variable _Bands : family -> string -> bool.

Local Abbreviation tofloat := (py_float float_of_str).
Local Abbreviation en_check := (_en float_of_str).
Local Abbreviation refused := (inconsistent _Bands).
Local Abbreviation validate := (utmupsValidate float_of_str _to3zBhp _Bands).
Local Abbreviation validateOK := (utmupsValidateOK float_of_str _to3zBhp _Bands).

(** [_en] returns exactly for a finite number in the range. *)
Lemma _en_returns_iff U Error en lo hi ename :
  en_check U Error en lo hi ename = Ok tt
  <-> exists q, tofloat en = Ok (Fin q) /\ (inject_Z lo <= q <= inject_Z hi)%Q.
Proof.
  split.
  - unfold _en. destruct (tofloat en) as [x|x] eqn:E.
    + destruct (fle (ffloat lo) x && fle x (ffloat hi)) eqn:R; [|discriminate].
      intros _. destruct x as [q| | |]; simpl in R;
        try discriminate; try (rewrite andb_false_r in R; discriminate).
      exists q. split; [reflexivity|]. now apply in_range_iff.
    + destruct (caught x _); discriminate.
  - intros (q & Hq & R). now apply (_en_in_range _ _ _ _ _ _ _ _ Hq R).
Qed.

(** What [_en] raises is the configured error or the
    [OverflowError] of [float]. *)
Lemma _en_raises_class U Error en lo hi ename x :
  en_check U Error en lo hi ename = Raise x ->
  x = range_error Error U ename en lo hi
  \/ (exn_class x = OverflowError /\ tofloat en = Raise x).
Proof.
  unfold _en, py_float.
  destruct en as [|z|f|s]; simpl.
  - intros [= <-]. now left.
  - destruct (Z.abs z <? _).
    + destruct (_ && _); intros [= <-]. now left.
    + simpl. intros [= <-]. right. now split.
  - destruct (_ && _); intros [= <-]. now left.
  - destruct (float_of_str s).
    + destruct (_ && _); intros [= <-]. now left.
    + simpl. intros [= <-]. now left.
Qed.

(** A wider range accepts what a narrower one accepts. *)
Lemma _en_widen U U' Error Error' en lo hi lo' hi' ename ename' :
  lo' <= lo -> hi <= hi' ->
  en_check U Error en lo hi ename = Ok tt ->
  en_check U' Error' en lo' hi' ename' = Ok tt.
Proof.
  intros Hlo Hhi H. apply _en_returns_iff in H as (q & Hq & R).
  apply _en_returns_iff. exists q. split; [exact Hq|].
  rewrite Zle_Qle in Hlo, Hhi. lra.
Qed.

(** [utmupsValidate] passes in two ways only. *)
Lemma utmupsValidate_passes coord falsed MGRS Error :
  validate coord falsed MGRS Error = Ok tt
  <-> exists zone hemi e n band enMM z B h,
        coord_fields coord falsed Error = Ok (zone, hemi, e, n, band, enMM)
        /\ _to3zBhp zone band hemi = Ok (z, B, h)
        /\ refused z B h = false
        /\ (enMM = true ->
            let M := family_MinMax (zone_family z) in
            let i := str_find _NS_ h in
            en_check (range_name MGRS (zone_family z)) Error e
              (item (eMin M) i - margin MGRS) (item (eMax M) i + margin MGRS)
              _easting_ = Ok tt
            /\ en_check (range_name MGRS (zone_family z)) Error n
                 (item (nMin M) i - margin MGRS) (item (nMax M) i + margin MGRS)
                 _northing_ = Ok tt).
Proof.
  split.
  - intros H.
    destruct (coord_fields coord falsed Error) as [[[[[[zone hemi] e] n] band] enMM]|x]
      eqn:E1; [|unfold utmupsValidate in H; rewrite E1 in H; discriminate].
    destruct (_to3zBhp zone band hemi) as [[[z B] h]|x] eqn:E2;
      [|rewrite (utmupsValidate_not_normalized _ _ _ _ _ _ _ _ _ _ _ _ _ _ E1 E2) in H;
        discriminate].
    destruct (refused z B h) eqn:E3;
      [rewrite (utmupsValidate_inconsistent _ _ _ _ _ _ _ _ _ _ _ _ _ _ _ _ E1 E2 E3) in H;
       discriminate|].
    exists zone, hemi, e, n, band, enMM, z, B, h.
    repeat split; try assumption;
      rewrite (utmupsValidate_consistent _ _ _ _ _ _ _ _ _ _ _ _ _ _ _ _ E1 E2 E3) in H;
      cbv zeta in H; subst enMM;
      match type of H with
      | bind ?m _ = _ => destruct m as [[]|y] eqn:Em; simpl in H
      end; try discriminate; auto.
  - intros (zone & hemi & e & n & band & enMM & z & B & h & E1 & E2 & E3 & H).
    rewrite (utmupsValidate_consistent _ _ _ _ _ _ _ _ _ _ _ _ _ _ _ _ E1 E2 E3).
    cbv zeta. destruct enMM; [|reflexivity].
    destruct (H eq_refl) as [He Hn]. cbv zeta in He, Hn.
    rewrite He; simpl. exact Hn.
Qed.

(** The range check of a falsed coordinate. *)
Lemma utmupsValidate_falsed_passes
    coord falsed MGRS Error zone hemi e n band z B h :
  coord_fields coord falsed Error = Ok (zone, hemi, e, n, band, true) ->
  _to3zBhp zone band hemi = Ok (z, B, h) ->
  refused z B h = false ->
  let M := family_MinMax (zone_family z) in
  let i := str_find _NS_ h in
  let s := margin MGRS in
  validate coord falsed MGRS Error = Ok tt
  <-> exists qe qn,
        tofloat e = Ok (Fin qe) /\ tofloat n = Ok (Fin qn)
        /\ (inject_Z (item (eMin M) i - s) <= qe <= inject_Z (item (eMax M) i + s))%Q
        /\ (inject_Z (item (nMin M) i - s) <= qn <= inject_Z (item (nMax M) i + s))%Q.
Proof.
  intros E1 E2 E3 M i s.
  rewrite (utmupsValidate_consistent _ _ _ _ _ _ _ _ _ _ _ _ _ _ _ _ E1 E2 E3).
  cbv zeta. fold M i s.
  split.
  - intros H.
    match type of H with
    | bind ?m _ = _ => destruct m as [[]|y] eqn:Em; simpl in H
    end; [|discriminate].
    apply _en_returns_iff in Em as (qe & He & Re).
    apply _en_returns_iff in H as (qn & Hn & Rn).
    now exists qe, qn.
  - intros (qe & qn & He & Hn & Re & Rn).
    rewrite (_en_in_range _ _ _ _ _ _ _ _ He Re); simpl.
    apply (_en_in_range _ _ _ _ _ _ _ _ Hn Rn).
Qed.

(** C9: for an instance of [Utm] or [Ups] the parameter [falsed] is
    ignored: whatever it is, the easting and northing are not
    checked when the attribute [falsed] of the instance is off, and
    are checked against the ranges when it is on.  For a tuple the
    parameter decides in the same way. *)
Theorem falsed_parameter_only_for_tuples
    (o : Obj.t) (t : Tup5.t) (t8 : Tup8.t) (f MGRS : bool) (Error : eclass)
    z B h z' B' h' :
  _to3zBhp (Obj.zone o) (Obj.band o) (Obj.hemisphere o) = Ok (z, B, h) ->
  refused z B h = false ->
  _to3zBhp (Tup5.zone t) (Tup5.band t) (Tup5.hemipole t) = Ok (z', B', h') ->
  refused z' B' h' = false ->
  let in_ranges (z : Z) (h : string) (e n : pyval) :=
    let M := family_MinMax (zone_family z) in
    let i := str_find _NS_ h in
    let s := margin MGRS in
    exists qe qn,
      tofloat e = Ok (Fin qe) /\ tofloat n = Ok (Fin qn)
      /\ (inject_Z (item (eMin M) i - s) <= qe <= inject_Z (item (eMax M) i + s))%Q
      /\ (inject_Z (item (nMin M) i - s) <= qn <= inject_Z (item (nMax M) i + s))%Q in
  (Obj.falsed o = false ->
   validate (UtmInst o) f MGRS Error = Ok tt
   /\ validate (UpsInst o) f MGRS Error = Ok tt)
  /\ (Obj.falsed o = true ->
      (validate (UtmInst o) f MGRS Error = Ok tt
       <-> in_ranges z h (Obj.easting o) (Obj.northing o))
      /\ (validate (UpsInst o) f MGRS Error = Ok tt
          <-> in_ranges z h (Obj.easting o) (Obj.northing o)))
  /\ validate (UtmInst o) f MGRS Error = validate (UtmInst o) (negb f) MGRS Error
  /\ validate (UpsInst o) f MGRS Error = validate (UpsInst o) (negb f) MGRS Error
  /\ (f = false -> validate (Tuple5 t) f MGRS Error = Ok tt)
  /\ (f = true ->
      (validate (Tuple5 t) f MGRS Error = Ok tt
       <-> in_ranges z' h' (Tup5.easting t) (Tup5.northing t)))
  /\ validate (Tuple8 t8) f MGRS Error
     = validate
         (Tuple5 (Tup5.Make (Tup8.zone t8) (Tup8.hemipole t8) (Tup8.easting t8)
                    (Tup8.northing t8) (Tup8.band t8))) f MGRS Error.
Proof.
  intros Ho Ro Ht Rt in_ranges.
  assert (Fo : forall c b,
             (c = UtmInst o \/ c = UpsInst o) -> Obj.falsed o = b ->
             coord_fields c f Error
             = Ok (Obj.zone o, Obj.hemisphere o, Obj.easting o, Obj.northing o,
                   Obj.band o, b)).
  { intros c b [-> | ->] <-; reflexivity. }
  assert (Ft : forall b,
             coord_fields (Tuple5 t) b Error
             = Ok (Tup5.zone t, Tup5.hemipole t, Tup5.easting t, Tup5.northing t,
                   Tup5.band t, b)) by reflexivity.
  split; [|split; [|split; [reflexivity|split; [reflexivity|split; [|split]]]]].
  - intros Hf. split.
    + now rewrite (utmupsValidate_consistent _ _ _ _ _ _ _ _ _ _ _ _ _ _ _ _
                     (Fo _ _ (or_introl eq_refl) Hf) Ho Ro).
    + now rewrite (utmupsValidate_consistent _ _ _ _ _ _ _ _ _ _ _ _ _ _ _ _
                     (Fo _ _ (or_intror eq_refl) Hf) Ho Ro).
  - intros Hf. split.
    + exact (utmupsValidate_falsed_passes _ _ MGRS _ _ _ _ _ _ _ _ _
               (Fo _ _ (or_introl eq_refl) Hf) Ho Ro).
    + exact (utmupsValidate_falsed_passes _ _ MGRS _ _ _ _ _ _ _ _ _
               (Fo _ _ (or_intror eq_refl) Hf) Ho Ro).
  - intros ->.
    now rewrite (utmupsValidate_consistent _ _ _ _ _ _ _ _ _ _ _ _ _ _ _ _
                   (Ft false) Ht Rt).
  - intros ->.
    exact (utmupsValidate_falsed_passes _ _ MGRS _ _ _ _ _ _ _ _ _ (Ft true) Ht Rt).
  - reflexivity.
Qed.

(** X1: a falsed coordinate with a legal zone, band and hemisphere
    passes exactly when its easting and its northing convert to
    finite numbers that lie in the ranges of the table, each range
    widened by one tile on either side when [MGRS] is set. *)
Theorem falsed_passes_iff_in_ranges
    coord falsed (MGRS : bool) Error zone hemi e n band z B h :
  coord_fields coord falsed Error = Ok (zone, hemi, e, n, band, true) ->
  _to3zBhp zone band hemi = Ok (z, B, h) ->
  refused z B h = false ->
  let M := family_MinMax (zone_family z) in
  let i := str_find _NS_ h in
  let s := if MGRS then _MGRS_TILE else 0 in
  validate coord falsed MGRS Error = Ok tt
  <-> exists qe qn,
        tofloat e = Ok (Fin qe) /\ tofloat n = Ok (Fin qn)
        /\ (inject_Z (item (eMin M) i - s) <= qe <= inject_Z (item (eMax M) i + s))%Q
        /\ (inject_Z (item (nMin M) i - s) <= qn <= inject_Z (item (nMax M) i + s))%Q.
Proof.
  intros E1 E2 E3. exact (utmupsValidate_falsed_passes _ _ MGRS _ _ _ _ _ _ _ _ _ E1 E2 E3).
Qed.

(** X2: what passes with the plain ranges passes with the ranges
    widened for MGRS. *)
Theorem MGRS_accepts_more (coord : pyobj) (falsed : bool) (Error : eclass) :
  validate coord falsed false Error = Ok tt ->
  validate coord falsed true Error = Ok tt.
Proof.
  intros H. apply utmupsValidate_passes in H
    as (zone & hemi & e & n & band & enMM & z & B & h & E1 & E2 & E3 & H).
  apply utmupsValidate_passes.
  exists zone, hemi, e, n, band, enMM, z, B, h. repeat split; try assumption.
  - destruct (H H0) as [He _]. cbv zeta in He.
    eapply _en_widen; [| |exact He]; unfold margin, _MGRS_TILE; lia.
  - destruct (H H0) as [_ Hn]. cbv zeta in Hn.
    eapply _en_widen; [| |exact Hn]; unfold margin, _MGRS_TILE; lia.
Qed.

(** X3: a NaN or an infinity as the easting or northing of a
    falsed coordinate never passes; as the easting it gives the
    error of the easting range. *)
Theorem not_finite_refused
    coord falsed MGRS Error zone hemi e n band z B h :
  coord_fields coord falsed Error = Ok (zone, hemi, e, n, band, true) ->
  _to3zBhp zone band hemi = Ok (z, B, h) ->
  refused z B h = false ->
  let not_finite v := v = PyFloat NaN \/ v = PyFloat PosInf \/ v = PyFloat NegInf in
  let M := family_MinMax (zone_family z) in
  let i := str_find _NS_ h in
  (not_finite e ->
   validate coord falsed MGRS Error
   = Raise (range_error Error (range_name MGRS (zone_family z)) _easting_ e
              (item (eMin M) i - margin MGRS) (item (eMax M) i + margin MGRS)))
  /\ (not_finite n -> validate coord falsed MGRS Error <> Ok tt).
Proof.
  intros E1 E2 E3 not_finite M i. split.
  - intros He.
    rewrite (utmupsValidate_consistent _ _ _ _ _ _ _ _ _ _ _ _ _ _ _ _ E1 E2 E3).
    cbv zeta. fold M i.
    assert (Hx : exists x, tofloat e = Ok x /\ forall q, x <> Fin q).
    { destruct He as [->|[->| ->]]; eexists; (split; [reflexivity|discriminate]). }
    destruct Hx as (x & Hx & Hq).
    now rewrite (_en_not_finite _ _ _ _ _ _ _ _ Hx Hq).
  - intros Hn H.
    apply (utmupsValidate_falsed_passes _ _ MGRS _ _ _ _ _ _ _ _ _ E1 E2 E3) in H
      as (qe & qn & _ & Hq & _).
    destruct Hn as [->|[->| ->]]; discriminate Hq.
Qed.

(** X4: an exception of [utmupsValidate] is made with the class
    [Error], or is the one [_to3zBhp] raised, or is the
    [OverflowError] of [float]. *)
Theorem raised_error_origin coord falsed MGRS Error x :
  validate coord falsed MGRS Error = Raise x ->
  exn_class x = Error
  \/ (exists zone band hemi, _to3zBhp zone band hemi = Raise x)
  \/ exn_class x = OverflowError.
Proof.
  intros H.
  destruct (coord_fields coord falsed Error) as [[[[[[zone hemi] e] n] band] enMM]|y]
    eqn:E1.
  2:{ destruct (utmupsValidate_not_a_coord float_of_str _to3zBhp _Bands _ _ MGRS _ _ E1)
        as [Hv ->].
      rewrite Hv in H. injection H as <-. now left. }
  destruct (_to3zBhp zone band hemi) as [[[z B] h]|y] eqn:E2.
  2:{ rewrite (utmupsValidate_not_normalized _ _ _ _ _ _ _ _ _ _ _ _ _ _ E1 E2) in H.
      injection H as <-. right. left. now exists zone, band, hemi. }
  destruct (refused z B h) eqn:E3.
  { rewrite (utmupsValidate_inconsistent _ _ _ _ _ _ _ _ _ _ _ _ _ _ _ _ E1 E2 E3) in H.
    injection H as <-. now left. }
  rewrite (utmupsValidate_consistent _ _ _ _ _ _ _ _ _ _ _ _ _ _ _ _ E1 E2 E3) in H.
  cbv zeta in H. destruct enMM; [|discriminate].
  apply bind_raises in H as [H|(a & _ & H)];
    apply _en_raises_class in H as [-> | [H _]]; auto.
Qed.

(** X5: the easting is checked before the northing: an error that
    names the northing is raised only for a falsed coordinate whose
    easting is a finite number in its range. *)
Theorem northing_error_after_easting
    coord falsed MGRS Error zone hemi e n band enMM z B h x rest :
  coord_fields coord falsed Error = Ok (zone, hemi, e, n, band, enMM) ->
  _to3zBhp zone band hemi = Ok (z, B, h) ->
  validate coord falsed MGRS Error = Raise x ->
  exn_args x = Val (PyStr _northing_) :: rest ->
  let M := family_MinMax (zone_family z) in
  let i := str_find _NS_ h in
  enMM = true
  /\ exists qe, tofloat e = Ok (Fin qe)
      /\ (inject_Z (item (eMin M) i - margin MGRS) <= qe
          <= inject_Z (item (eMax M) i + margin MGRS))%Q.
Proof.
  intros E1 E2 H Hargs M i.
  destruct (refused z B h) eqn:E3.
  { rewrite (utmupsValidate_inconsistent _ _ _ _ _ _ _ _ _ _ _ _ _ _ _ _ E1 E2 E3) in H.
    injection H as <-. discriminate Hargs. }
  rewrite (utmupsValidate_consistent _ _ _ _ _ _ _ _ _ _ _ _ _ _ _ _ E1 E2 E3) in H.
  cbv zeta in H. fold M i in H. destruct enMM; [|discriminate].
  split; [reflexivity|].
  apply bind_raises in H as [H|([] & Ha & _)].
  - exfalso. apply _en_raises_class in H as [-> | [Hc Hf]].
    + discriminate Hargs.
    + unfold py_float in Hf. destruct e as [|k|f|s0]; simpl in Hf.
      * injection Hf as <-. discriminate Hc.
      * destruct (Z.abs k <? _); [discriminate|].
        injection Hf as <-. discriminate Hargs.
      * discriminate.
      * destruct (float_of_str s0); [discriminate|].
        injection Hf as <-. discriminate Hc.
  - now apply _en_returns_iff in Ha.
Qed.

(** X6: the ranges of the UPS tables are the same for easting and
    northing: a UPS tuple passes exactly when the tuple with its
    easting and northing exchanged passes. *)
Theorem ups_easting_northing_exchange
    (t : Tup5.t) (falsed MGRS : bool) (Error : eclass) z B h :
  _to3zBhp (Tup5.zone t) (Tup5.band t) (Tup5.hemipole t) = Ok (z, B, h) ->
  zone_family z = UPS ->
  let t' := Tup5.Make (Tup5.zone t) (Tup5.hemipole t) (Tup5.northing t)
              (Tup5.easting t) (Tup5.band t) in
  validate (Tuple5 t) falsed MGRS Error = Ok tt
  <-> validate (Tuple5 t') falsed MGRS Error = Ok tt.
Proof.
  intros E2 Hf t'.
  assert (Sw : forall a b : Tup5.t,
             Tup5.zone a = Tup5.zone b -> Tup5.band a = Tup5.band b ->
             Tup5.hemipole a = Tup5.hemipole b ->
             Tup5.easting a = Tup5.northing b -> Tup5.northing a = Tup5.easting b ->
             _to3zBhp (Tup5.zone a) (Tup5.band a) (Tup5.hemipole a) = Ok (z, B, h) ->
             validate (Tuple5 a) falsed MGRS Error = Ok tt ->
             validate (Tuple5 b) falsed MGRS Error = Ok tt).
  { intros a b Hz Hb Hh He Hn Ea H.
    apply utmupsValidate_passes in H
      as (zone & hemi & e & n & band & enMM & z0 & B0 & h0 & E1 & E2' & E3 & H).
    simpl in E1. injection E1 as <- <- <- <- <- <-.
    rewrite Ea in E2'. injection E2' as <- <- <-.
    apply utmupsValidate_passes.
    exists (Tup5.zone b), (Tup5.hemipole b), (Tup5.easting b), (Tup5.northing b),
      (Tup5.band b), falsed, z, B, h.
    split; [reflexivity|]. split; [now rewrite <- Hz, <- Hb, <- Hh|].
    split; [exact E3|]. intros Hfl. destruct (H Hfl) as [Pe Pn].
    cbv zeta in *. rewrite Hf in *. rewrite <- Hn, <- He.
    apply _en_returns_iff in Pe, Pn. split; apply _en_returns_iff.
    - exact Pn.
    - exact Pe. }
  split; intros H.
  - apply (Sw t t'); auto.
  - apply (Sw t' t); auto.
Qed.

(** X7: an empty normalized hemisphere is not refused, as
    [_NS_.find] reports the position 0 for it: the coordinate is
    checked like one of the North. *)
Theorem empty_hemisphere_as_north
    coord falsed MGRS Error zone hemi e n band enMM z B :
  coord_fields coord falsed Error = Ok (zone, hemi, e, n, band, enMM) ->
  _to3zBhp zone band hemi = Ok (z, B, EmptyString) ->
  let M := family_MinMax (zone_family z) in
  let legal :=
    _UTMUPS_ZONE_MIN <= z <= _UTMUPS_ZONE_MAX /\ _Bands (zone_family z) B = true in
  (enMM = false -> (validate coord falsed MGRS Error = Ok tt <-> legal))
  /\ (enMM = true ->
      (validate coord falsed MGRS Error = Ok tt
       <-> legal
           /\ exists qe qn,
                tofloat e = Ok (Fin qe) /\ tofloat n = Ok (Fin qn)
                /\ (inject_Z (item (eMin M) 0 - margin MGRS) <= qe
                    <= inject_Z (item (eMax M) 0 + margin MGRS))%Q
                /\ (inject_Z (item (nMin M) 0 - margin MGRS) <= qn
                    <= inject_Z (item (nMax M) 0 + margin MGRS))%Q)).
Proof.
  intros E1 E2 M legal.
  assert (Hl : refused z B EmptyString = false <-> legal).
  { rewrite (consistent_iff float_of_str).
    change (str_find _NS_ EmptyString) with 0.
    unfold legal. split.
    - intros (_ & Hz & Hb). now split.
    - intros [Hz Hb]. split; [lia|now split]. }
  assert (Hbad : ~ legal -> validate coord falsed MGRS Error <> Ok tt).
  { intros Hn H. apply Hn, Hl.
    destruct (refused z B EmptyString) eqn:E3; [|reflexivity].
    rewrite (utmupsValidate_inconsistent _ _ _ _ _ _ _ _ _ _ _ _ _ _ _ _ E1 E2 E3) in H.
    discriminate. }
  assert (Hdec : legal \/ ~ legal).
  { destruct (refused z B EmptyString) eqn:E3.
    - right. intros L. apply Hl in L. congruence.
    - left. now apply Hl. }
  split; intros ->.
  - split.
    + intros H. destruct Hdec as [L|L]; [exact L|now elim (Hbad L)].
    + intros L. apply Hl in L.
      now rewrite (utmupsValidate_consistent _ _ _ _ _ _ _ _ _ _ _ _ _ _ _ _ E1 E2 L).
  - split.
    + intros H. destruct Hdec as [L|L]; [|now elim (Hbad L)].
      split; [exact L|]. apply Hl in L.
      apply (utmupsValidate_falsed_passes _ _ MGRS _ _ _ _ _ _ _ _ _ E1 E2 L) in H.
      exact H.
    + intros [L H]. apply Hl in L.
      apply (utmupsValidate_falsed_passes _ _ MGRS _ _ _ _ _ _ _ _ _ E1 E2 L).
      exact H.
Qed.

(** X8: whether a coordinate passes does not depend on the class
    [Error]. *)
Theorem passing_independent_of_Error coord falsed MGRS (Error Error' : eclass) :
  validate coord falsed MGRS Error = Ok tt
  <-> validate coord falsed MGRS Error' = Ok tt.
Proof.
  assert (H : forall E E', validate coord falsed MGRS E = Ok tt ->
                           validate coord falsed MGRS E' = Ok tt).
  { intros E E' H. apply utmupsValidate_passes in H
      as (zone & hemi & e & n & band & enMM & z & B & h & E1 & E2 & E3 & H).
    apply utmupsValidate_passes.
    exists zone, hemi, e, n, band, enMM, z, B, h. repeat split; try assumption.
    - destruct coord; simpl in *; congruence.
    - destruct (H H0) as [He _]. cbv zeta in He.
      eapply _en_widen; [| |exact He]; lia.
    - destruct (H H0) as [_ Hn]. cbv zeta in Hn.
      eapply _en_widen; [| |exact Hn]; lia. }
  split; apply H.
Qed.

(** X9: [utmupsValidateOK] returns [ok] exactly when
    [utmupsValidate] passes with the plain ranges, returns an error
    exactly when that is the [UTMUPSError] [utmupsValidate] raised,
    and raises exactly the other exceptions of [utmupsValidate]. *)
Theorem utmupsValidateOK_result {A : Type} (coord : pyobj) (falsed : bool) (ok : A) :
  (validateOK coord falsed ok = Ok (IsOk A ok)
   <-> validate coord falsed false UTMUPSError = Ok tt)
  /\ (forall x, validateOK coord falsed ok = Ok (IsError A x)
                <-> validate coord falsed false UTMUPSError = Raise x
                    /\ isinstance x UTMUPSError = true)
  /\ (forall x, validateOK coord falsed ok = Raise x
                <-> validate coord falsed false UTMUPSError = Raise x
                    /\ isinstance x UTMUPSError = false).
Proof.
  unfold utmupsValidateOK.
  destruct (validate coord falsed false UTMUPSError) as [[]|y].
  - split; [now split|].
    split; intros x; split; try discriminate; intros [H _]; discriminate.
  - rewrite caught_one. destruct (isinstance y UTMUPSError) eqn:Hy.
    + split; [split; discriminate|].
      split; intros x; split.
      * intros [= <-]. now split.
      * intros [[= <-] _]. reflexivity.
      * discriminate.
      * intros [[= <-] H]. congruence.
    + split; [split; discriminate|].
      split; intros x; split.
      * discriminate.
      * intros [[= <-] H]. congruence.
      * intros [= <-]. now split.
      * intros [[= <-] _]. reflexivity.
Qed.

End ValidatorMore.

(** ** More on the dispatch *)

Section DispatchMore.

Variable utmZoneBand5 : pyval -> pyval -> bool -> result UtmUpsLatLon5Tuple.
Variable upsZoneBand5 : pyval -> pyval -> result UtmUpsLatLon5Tuple.
Variable parseUTM5 : string -> pyval -> option pyclass -> string -> result pyobj.
Variable parseUPS5 : string -> pyval -> option pyclass -> string -> result pyobj.
Variable exn_str : exn -> string.

Local Abbreviation classify := (utmupsZoneBand5 utmZoneBand5 upsZoneBand5).
Local Abbreviation parse := (parseUTMUPS5 parseUTM5 parseUPS5 exn_str).

(** The error [parseUTMUPS5] makes of a parser's error. *)
Local Abbreviation unified s x :=
  (mkExn UTMUPSError []
     [("strUTMUPS", Val (PyStr s)); ("txt", Val (PyStr (exn_str x)))]).

(** The course of [parseUTMUPS5], for any parsers. *)
Lemma parseUTMUPS5_cases s datum U P name :
  parse s datum U P name
  = match parseUTM5 s datum U name with
    | Ok u => ([Call_parseUTM5 s datum U name], Ok u)
    | Raise x =>
        if isinstance x UTMError then
          ([Call_parseUTM5 s datum U name; Call_parseUPS5 s datum P name],
           match parseUPS5 s datum P name with
           | Ok u => Ok u
           | Raise y =>
               if caught y [UTMError; UPSError] then Raise (unified s y) else Raise y
           end)
        else
          ([Call_parseUTM5 s datum U name],
           if caught x [UTMError; UPSError] then Raise (unified s x) else Raise x)
    end.
Proof.
  unfold parseUTMUPS5, invoke, lift.
  destruct (parseUTM5 s datum U name) as [u|x]; [reflexivity|].
  destruct (isinstance x UTMError) eqn:Hx.
  - rewrite (try_except_caught _ x [UTMError]) by now rewrite caught_one.
    cbn [calls outcome fst snd app].
    destruct (parseUPS5 s datum P name) as [u|y]; [reflexivity|].
    destruct (caught y [UTMError; UPSError]) eqn:Hy.
    + now rewrite (try_except_caught _ y) by exact Hy.
    + now rewrite (try_except_uncaught _ y) by exact Hy.
  - rewrite (try_except_uncaught _ x [UTMError]) by now rewrite caught_one.
    destruct (caught x [UTMError; UPSError]) eqn:Hc.
    + now rewrite (try_except_caught _ x) by exact Hc.
    + now rewrite (try_except_uncaught _ x) by exact Hc.
Qed.

(** C7, amended: [parseUTMUPS5] calls the UTM parser first, and
    calls the UPS parser if and only if the UTM parser failed with
    a [UTMError]; it succeeds with the result of the parser that
    succeeded; a failure of the parser called last that is a
    [UTMError] or a [UPSError] is raised as a [UTMUPSError] with
    the input string and the message of that failure, and any
    other failure reaches the caller unchanged. *)
Theorem parseUTMUPS5_dispatch
    (s : string) (datum : pyval) (U P : option pyclass) (name : string) :
  let m := parse s datum U P name in
  let last_failure y :=
    (parseUTM5 s datum U name = Raise y /\ isinstance y UTMError = false)
    \/ (exists x, parseUTM5 s datum U name = Raise x
                   /\ isinstance x UTMError = true
                   /\ parseUPS5 s datum P name = Raise y) in
  (exists rest, calls m = Call_parseUTM5 s datum U name :: rest)
  /\ (In (Call_parseUPS5 s datum P name) (calls m)
      <-> exists x, parseUTM5 s datum U name = Raise x
                    /\ isinstance x UTMError = true)
  /\ (forall u, outcome m = Ok u
                <-> parseUTM5 s datum U name = Ok u
                    \/ (exists x, parseUTM5 s datum U name = Raise x
                                   /\ isinstance x UTMError = true)
                       /\ parseUPS5 s datum P name = Ok u)
  /\ (forall e, outcome m = Raise e
                <-> exists y, last_failure y
                      /\ ((caught y [UTMError; UPSError] = true
                           /\ e = mkExn UTMUPSError []
                                    [("strUTMUPS", Val (PyStr s));
                                     ("txt", Val (PyStr (exn_str y)))])
                          \/ (caught y [UTMError; UPSError] = false /\ e = y))).
Proof.
  intros m last_failure. unfold m, last_failure. rewrite parseUTMUPS5_cases.
  unfold outcome, calls.
  destruct (parseUTM5 s datum U name) as [u|x]; cbn [fst snd].
  - split; [now eexists|]. split; [|split].
    + split; [intros [H|[]]; discriminate|intros (x & H & _); discriminate].
    + intros u'. split.
      * intros [= <-]. now left.
      * intros [[= <-]|[(x & H & _) _]]; [reflexivity|discriminate].
    + intros e. split; [discriminate|].
      intros (y & [[H _]|(x & H & _)] & _); discriminate.
  - destruct (isinstance x UTMError) eqn:Hx; cbn [fst snd].
    + split; [now eexists|]. split; [|split].
      * split; [intros _; now exists x|intros _; right; now left].
      * intros u. split.
        -- intros H. right. split; [now exists x|].
           destruct (parseUPS5 s datum P name) as [u'|y]; [exact H|].
           destruct (caught y _); discriminate.
        -- intros [H|[_ H]]; [discriminate|]. now rewrite H.
      * intros e. destruct (parseUPS5 s datum P name) as [u|y].
        -- split; [discriminate|].
           intros (y & [[[= <-] H]|(x' & _ & _ & H)] & _); [congruence|discriminate].
        -- destruct (caught y [UTMError; UPSError]) eqn:Hy.
           ++ split.
              ** intros [= <-]. exists y. split; [right; now exists x|].
                 left. now split.
              ** intros (y' & [[[= <-] H]|(x' & _ & _ & [= <-])] & He); [congruence|].
                 destruct He as [[_ ->]|[He _]]; [reflexivity|congruence].
           ++ split.
              ** intros [= <-]. exists y. split; [right; now exists x|].
                 right. now split.
              ** intros (y' & [[[= <-] H]|(x' & _ & _ & [= <-])] & He); [congruence|].
                 destruct He as [[He _]|[_ ->]]; [congruence|reflexivity].
    + split; [now eexists|]. split; [|split].
      * split; [intros [H|[]]; discriminate|].
        intros (x' & [= <-] & H). congruence.
      * intros u. split.
        -- destruct (caught x _); discriminate.
        -- intros [H|[(x' & [= <-] & H) _]]; [discriminate|congruence].
      * intros e. destruct (caught x [UTMError; UPSError]) eqn:Hc.
        -- split.
           ++ intros [= <-]. exists x. split; [now left|]. left. now split.
           ++ intros (y & [[[= <-] _]|(x' & [= <-] & H & _)] & He); [|congruence].
              destruct He as [[_ ->]|[He _]]; [reflexivity|congruence].
        -- split.
           ++ intros [= <-]. exists x. split; [now left|]. right. now split.
           ++ intros (y & [[[= <-] _]|(x' & [= <-] & H & _)] & He); [|congruence].
              destruct He as [[He _]|[_ ->]]; [congruence|reflexivity].
Qed.

(** X10: whatever the parsers do, [parseUTMUPS5] calls the UTM
    parser first and the UPS parser at most once after it, exactly
    when the UTM parser raised a [UTMError]. *)
Theorem parseUTMUPS5_calls s datum U P name :
  let m := parse s datum U P name in
  (calls m = [Call_parseUTM5 s datum U name]
   \/ calls m = [Call_parseUTM5 s datum U name; Call_parseUPS5 s datum P name])
  /\ (In (Call_parseUPS5 s datum P name) (calls m)
      <-> exists x, parseUTM5 s datum U name = Raise x
                    /\ isinstance x UTMError = true).
Proof.
  intros m. unfold m. rewrite parseUTMUPS5_cases.
  destruct (parseUTM5 s datum U name) as [u|x].
  - split; [now left|]. simpl. split.
    + intros [H|[]]; discriminate.
    + intros (x & H & _); discriminate.
  - destruct (isinstance x UTMError) eqn:Hx; simpl.
    + split; [now right|]. split; [|auto]. intros _. now exists x.
    + split; [now left|]. split.
      * intros [H|[]]; discriminate.
      * intros (y & [= <-] & Hy). congruence.
Qed.

(** X11: [parseUTMUPS5] never raises a [UTMError] or a [UPSError],
    whatever the parsers raise. *)
Theorem parseUTMUPS5_no_engine_error s datum U P name e :
  outcome (parse s datum U P name) = Raise e ->
  isinstance e UTMError = false /\ isinstance e UPSError = false.
Proof.
  assert (Hu : forall y, caught y [UTMError; UPSError] = false ->
                         isinstance y UTMError = false /\ isinstance y UPSError = false).
  { intros y H. unfold caught in H; simpl in H.
    rewrite orb_false_r in H. now apply orb_false_iff in H. }
  rewrite parseUTMUPS5_cases. unfold outcome.
  destruct (parseUTM5 s datum U name) as [u|x]; [discriminate|].
  destruct (isinstance x UTMError); cbn [snd].
  - destruct (parseUPS5 s datum P name) as [u|y]; [discriminate|].
    destruct (caught y [UTMError; UPSError]) eqn:Hy; intros [= <-].
    + now split.
    + now apply Hu.
  - destruct (caught x [UTMError; UPSError]) eqn:Hc; intros [= <-].
    + now split.
    + now apply Hu.
Qed.

(** X12: an error of a parser that is neither a [UTMError] nor a
    [UPSError] reaches the caller unchanged; when it is the UTM
    parser that raised it, the UPS parser is not called. *)
Theorem parseUTMUPS5_other_errors s datum U P name :
  let m := parse s datum U P name in
  (forall x, parseUTM5 s datum U name = Raise x ->
             caught x [UTMError; UPSError] = false ->
             m = ([Call_parseUTM5 s datum U name], Raise x))
  /\ (forall x y, parseUTM5 s datum U name = Raise x ->
                  isinstance x UTMError = true ->
                  parseUPS5 s datum P name = Raise y ->
                  caught y [UTMError; UPSError] = false ->
                  m = ([Call_parseUTM5 s datum U name; Call_parseUPS5 s datum P name],
                       Raise y)).
Proof.
  intros m. unfold m. rewrite parseUTMUPS5_cases. split.
  - intros x -> Hc.
    assert (Hx : isinstance x UTMError = false).
    { unfold caught in Hc; simpl in Hc. now apply orb_false_iff in Hc as [-> _]. }
    now rewrite Hx, Hc.
  - intros x y -> Hx -> Hy. now rewrite Hx, Hy.
Qed.

(** X13: a [RangeError] that [utmupsZoneBand5] raises is one of the
    UPS classifier, called after the UTM classifier raised its
    own. *)
Theorem utmupsZoneBand5_RangeError_of_ups lat lon cmoff x :
  outcome (classify lat lon cmoff) = Raise x ->
  isinstance x RangeError = true ->
  upsZoneBand5 lat lon = Raise x
  /\ (exists y, utmZoneBand5 lat lon cmoff = Raise y
                /\ isinstance y RangeError = true)
  /\ calls (classify lat lon cmoff)
     = [Call_utmZoneBand5 lat lon cmoff; Call_upsZoneBand5 lat lon].
Proof.
  intros H Hx.
  destruct (utmZoneBand5 lat lon cmoff) as [r|y] eqn:E.
  - rewrite (utmupsZoneBand5_utm _ _ _ _ _ _ E) in H. discriminate.
  - destruct (isinstance y RangeError) eqn:Hy.
    + rewrite (utmupsZoneBand5_ups _ _ _ _ _ _ E Hy) in *. simpl in H.
      split; [exact H|]. split; [now exists y|reflexivity].
    + rewrite (utmupsZoneBand5_propagates _ _ _ _ _ _ E Hy) in H.
      simpl in H. injection H as <-. congruence.
Qed.

End DispatchMore.

(** X14: [UtmUps] makes a [Ups] instance for exactly the zones that
    [utmupsValidate] checks against the UPS table. *)
Theorem UtmUps_class_zone_family (z : Z) :
  (UtmUps_class z = Ups <-> zone_family z = UPS)
  /\ (UtmUps_class z = Utm <-> zone_family z = UTM).
Proof.
  unfold UtmUps_class, zone_family, py_in, _UPS_ZONE; simpl.
  rewrite orb_false_r.
  destruct (z =? 0); repeat split; congruence.
Qed.

(** ** The conversion *)

Section ConvertFacts.

Variable utmZoneBand5 : pyval -> pyval -> bool -> result UtmUpsLatLon5Tuple.
Variable upsZoneBand5 : pyval -> pyval -> result UtmUpsLatLon5Tuple.
Variable _to4lldn :
  latlon_arg -> pyval -> pyval -> string -> result (pyval * pyval * pyval * string).
Variable toUps8 :
  Q -> Q -> pyval -> bool -> option pyclass -> string -> string -> result pyobj.
Variable toUtm8 :
  Q -> Q -> pyval -> bool -> option pyclass -> string -> result pyobj.

Local Abbreviation classify := (utmupsZoneBand5 utmZoneBand5 upsZoneBand5).
Local Abbreviation convert :=
  (toUtmUps8 utmZoneBand5 upsZoneBand5 _to4lldn toUps8 toUtm8).

(** The course of [toUtmUps8] once [_to4lldn] has returned. *)
Lemma toUtmUps8_cases latlon lon datum falsed U P pole name cmoff lat lon' d name' :
  _to4lldn latlon lon datum name = Ok (lat, lon', d, name') ->
  convert latlon lon datum falsed U P pole name cmoff
  = match outcome (classify lat lon' false) with
    | Raise x => (map Classifier (calls (classify lat lon' false)), Raise x)
    | Ok zb =>
        let f := falsed && _xkwds_get cmoff "cmoff" true in
        if ll_zone zb =? _UPS_ZONE then
          ((map Classifier (calls (classify lat lon' false))
            ++ [Call_toUps8 (ll_lat zb) (ll_lon zb) d f P
                  (str_or pole (ll_hemipole zb)) name'])%list,
           toUps8 (ll_lat zb) (ll_lon zb) d f P (str_or pole (ll_hemipole zb)) name')
        else
          ((map Classifier (calls (classify lat lon' false))
            ++ [Call_toUtm8 (ll_lat zb) (ll_lon zb) d f U name'])%list,
           toUtm8 (ll_lat zb) (ll_lon zb) d f U name')
    end.
Proof.
  intros H. unfold toUtmUps8. rewrite H.
  destruct (classify lat lon' false) as [t [[z B p a b]|x]]; reflexivity.
Qed.

(** The calls of the classifier. *)
Lemma utmupsZoneBand5_calls lat lon cmoff c :
  In c (calls (classify lat lon cmoff)) ->
  c = Call_utmZoneBand5 lat lon cmoff \/ c = Call_upsZoneBand5 lat lon.
Proof.
  destruct (utmZoneBand5 lat lon cmoff) as [r|x] eqn:E.
  - rewrite (utmupsZoneBand5_utm _ _ _ _ _ _ E). simpl. intros [<-|[]]. now left.
  - destruct (isinstance x RangeError) eqn:Hx.
    + rewrite (utmupsZoneBand5_ups _ _ _ _ _ _ E Hx). simpl.
      intros [<-|[<-|[]]]; auto.
    + rewrite (utmupsZoneBand5_propagates _ _ _ _ _ _ E Hx). simpl.
      intros [<-|[]]. now left.
Qed.

(** X15: after a classification, [toUtmUps8] calls one engine, once
    and after the classifiers: [toUps8] when the zone is the UPS
    sentinel, with the pole given or else the pole classified, and
    [toUtm8] otherwise; the engine gets the latitude and longitude
    of the classification and the datum and name of [_to4lldn], and
    its result is the result of [toUtmUps8]. *)
Theorem toUtmUps8_engine
    latlon lon datum falsed U P pole name cmoff lat lon' d name' zb :
  _to4lldn latlon lon datum name = Ok (lat, lon', d, name') ->
  outcome (classify lat lon' false) = Ok zb ->
  let m := convert latlon lon datum falsed U P pole name cmoff in
  let t := map Classifier (calls (classify lat lon' false)) in
  let f := falsed && _xkwds_get cmoff "cmoff" true in
  (ll_zone zb = _UPS_ZONE ->
   m = ((t ++ [Call_toUps8 (ll_lat zb) (ll_lon zb) d f P
                 (str_or pole (ll_hemipole zb)) name'])%list,
        toUps8 (ll_lat zb) (ll_lon zb) d f P (str_or pole (ll_hemipole zb)) name'))
  /\ (ll_zone zb <> _UPS_ZONE ->
      m = ((t ++ [Call_toUtm8 (ll_lat zb) (ll_lon zb) d f U name'])%list,
           toUtm8 (ll_lat zb) (ll_lon zb) d f U name')).
Proof.
  intros H1 H2 m t f. unfold m.
  rewrite (toUtmUps8_cases _ _ _ _ _ _ _ _ _ _ _ _ _ H1), H2. cbv zeta.
  destruct (Z.eqb_spec (ll_zone zb) _UPS_ZONE) as [E|E]; split; intros E';
    try reflexivity; contradiction.
Qed.

(** X16: when [_to4lldn] or the classification fails, [toUtmUps8]
    raises that error and calls no engine. *)
Theorem toUtmUps8_failure latlon lon datum falsed U P pole name cmoff x :
  _to4lldn latlon lon datum name = Raise x
  \/ (exists lat lon' d name',
        _to4lldn latlon lon datum name = Ok (lat, lon', d, name')
        /\ outcome (classify lat lon' false) = Raise x) ->
  let m := convert latlon lon datum falsed U P pole name cmoff in
  snd m = Raise x
  /\ forall c, In c (fst m) -> exists c', c = Classifier c'.
Proof.
  intros [H|(lat & lon' & d & name' & H1 & H2)] m; unfold m.
  - unfold toUtmUps8. rewrite H. split; [reflexivity|]. intros c [].
  - rewrite (toUtmUps8_cases _ _ _ _ _ _ _ _ _ _ _ _ _ H1), H2.
    split; [reflexivity|]. simpl. intros c Hc.
    apply in_map_iff in Hc as (c' & <- & _). now exists c'.
Qed.

(** X17: the engine is asked for falsed coordinates exactly when
    [falsed] is set and the keyword [cmoff] was not given as
    [False]; the classifier is always called without the offset
    from the central meridian, whatever [cmoff] is. *)
Theorem toUtmUps8_falsed_cmoff latlon lon datum falsed U P pole name cmoff :
  let m := convert latlon lon datum falsed U P pole name cmoff in
  let f := falsed && _xkwds_get cmoff "cmoff" true in
  (forall a b d' f' u p n,
      In (Call_toUps8 a b d' f' u p n) (fst m) -> f' = f)
  /\ (forall a b d' f' u n,
         In (Call_toUtm8 a b d' f' u n) (fst m) -> f' = f)
  /\ (forall a b c,
         In (Classifier (Call_utmZoneBand5 a b c)) (fst m) -> c = false).
Proof.
  intros m f.
  assert (Hcl : forall lat lon' a b c,
             In (Classifier (Call_utmZoneBand5 a b c))
                (map Classifier (calls (classify lat lon' false))) -> c = false).
  { intros lat lon' a b c H. apply in_map_iff in H as (c' & [= ->] & H).
    apply utmupsZoneBand5_calls in H as [[= _ _ ->]|H]; [reflexivity|discriminate]. }
  assert (Hno : forall lat lon' c,
             (forall c', c <> Classifier c') ->
             ~ In c (map Classifier (calls (classify lat lon' false)))).
  { intros lat lon' c Hc H. apply in_map_iff in H as (c' & <- & _). now apply (Hc c'). }
  subst m f.
  destruct (_to4lldn latlon lon datum name) as [[[[lat lon'] d] name']|x] eqn:E.
  2:{ unfold toUtmUps8. rewrite E. simpl. repeat split; intros; contradiction. }
  rewrite (toUtmUps8_cases _ _ _ _ _ _ _ _ _ _ _ _ _ E).
  destruct (outcome (classify lat lon' false)) as [zb|x]; cbv zeta.
  2:{ simpl. repeat split; intros.
      - exfalso. eapply Hno; [|eassumption]. discriminate.
      - exfalso. eapply Hno; [|eassumption]. discriminate.
      - eapply Hcl; eassumption. }
  destruct (ll_zone zb =? _UPS_ZONE); simpl; repeat split; intros;
    match goal with
    | H : In _ (_ ++ _) |- _ => apply in_app_or in H as [H|[H|[]]]
    end;
    try (exfalso; eapply Hno; [|eassumption]; discriminate);
    try (eapply Hcl; eassumption);
    try discriminate;
    try (injection H as <-; reflexivity);
    congruence.
Qed.

(** X18: with a UTM classifier that never reports the sentinel
    zone and a UPS classifier that always does, [toUtmUps8] uses
    the UPS engine exactly when the UTM classifier raised a
    [RangeError] and the UPS classifier then succeeded. *)
Theorem toUtmUps8_ups_iff_fallback
    latlon lon datum falsed U P pole name cmoff lat lon' d name' :
  (forall a b c r, utmZoneBand5 a b c = Ok r -> ll_zone r <> _UPS_ZONE) ->
  (forall a b r, upsZoneBand5 a b = Ok r -> ll_zone r = _UPS_ZONE) ->
  _to4lldn latlon lon datum name = Ok (lat, lon', d, name') ->
  let m := convert latlon lon datum falsed U P pole name cmoff in
  (exists a b d' f' u p n, In (Call_toUps8 a b d' f' u p n) (fst m))
  <-> (exists x, utmZoneBand5 lat lon' false = Raise x
                 /\ isinstance x RangeError = true)
      /\ exists r, upsZoneBand5 lat lon' = Ok r.
Proof.
  intros Cutm Cups E m. unfold m.
  rewrite (toUtmUps8_cases _ _ _ _ _ _ _ _ _ _ _ _ _ E).
  assert (Hno : forall c, (forall c', c <> Classifier c') ->
                          ~ In c (map Classifier (calls (classify lat lon' false)))).
  { intros c Hc H. apply in_map_iff in H as (c' & <- & _). now apply (Hc c'). }
  destruct (utmZoneBand5 lat lon' false) as [r|x] eqn:Eu.
  - rewrite (utmupsZoneBand5_utm _ _ _ _ _ _ Eu). simpl.
    pose proof (Cutm _ _ _ _ Eu) as Hz. apply Z.eqb_neq in Hz. rewrite Hz. simpl.
    split.
    + intros (a & b & d' & f' & u & p & n & [H|[H|[]]]); discriminate.
    + intros [(x & Hx & _) _]. discriminate.
  - destruct (isinstance x RangeError) eqn:Hx.
    + rewrite (utmupsZoneBand5_ups _ _ _ _ _ _ Eu Hx). simpl.
      destruct (upsZoneBand5 lat lon') as [r|y] eqn:Ep.
      * pose proof (Cups _ _ _ Ep) as Hz. apply Z.eqb_eq in Hz. rewrite Hz. simpl.
        split.
        -- intros _. split; [now exists x|now exists r].
        -- intros _. do 7 eexists. right. right. left. reflexivity.
      * simpl. split.
        -- intros (a & b & d' & f' & u & p & n & [H|[H|[]]]); discriminate.
        -- intros [_ (r & Hr)]. discriminate.
    + rewrite (utmupsZoneBand5_propagates _ _ _ _ _ _ Eu Hx). simpl.
      split.
      * intros (a & b & d' & f' & u & p & n & [H|[]]); discriminate.
      * intros [(y & [= <-] & Hy) _]. congruence.
Qed.

End ConvertFacts.

(** ** The further properties on concrete coordinates *)

(** The witness of X1: the central point of UTM zone 31 North. *)
Lemma falsed_passes_iff_in_ranges_witness :
  utmupsValidate float_of_decimal to3zBhp_model Bands_model
    (Tuple5 (Tup5.Make (PyInt 31) (PyStr "N") (PyInt 500000) (PyInt 4649776)
               (PyStr "U")))
    true true UTMUPSError = Ok tt
  <-> exists qe qn,
        py_float float_of_decimal (PyInt 500000) = Ok (Fin qe)
        /\ py_float float_of_decimal (PyInt 4649776) = Ok (Fin qn)
        /\ (inject_Z (100000 - 100000) <= qe <= inject_Z (900000 + 100000))%Q
        /\ (inject_Z (-9000000 - 100000) <= qn <= inject_Z (9500000 + 100000))%Q.
Proof.
  exact (falsed_passes_iff_in_ranges float_of_decimal to3zBhp_model Bands_model
           (Tuple5 (Tup5.Make (PyInt 31) (PyStr "N") (PyInt 500000) (PyInt 4649776)
                      (PyStr "U")))
           true true UTMUPSError (PyInt 31) (PyStr "N") (PyInt 500000)
           (PyInt 4649776) (PyStr "U") 31 "U" "N" eq_refl eq_refl eq_refl).
Defined.

(** The witness of X2: an easting on the maximum of the UTM
    range. *)
Lemma MGRS_accepts_more_witness :
  utmupsValidate float_of_decimal to3zBhp_model Bands_model
    (Tuple5 (Tup5.Make (PyInt 31) (PyStr "N") (PyInt 900000) (PyInt 4649776)
               (PyStr "U")))
    true true UTMUPSError = Ok tt.
Proof.
  apply (MGRS_accepts_more float_of_decimal to3zBhp_model Bands_model).
  reflexivity.
Defined.

(** The witness of X3: a NaN as the easting. *)
Lemma not_finite_refused_witness :
  utmupsValidate float_of_decimal to3zBhp_model Bands_model
    (Tuple5 (Tup5.Make (PyInt 31) (PyStr "N") (PyFloat NaN) (PyInt 4649776)
               (PyStr "U")))
    true false UTMUPSError
  = Raise (range_error UTMUPSError _UTM_ _easting_ (PyFloat NaN) 100000 900000).
Proof.
  apply (proj1 (not_finite_refused float_of_decimal to3zBhp_model Bands_model
                  (Tuple5 (Tup5.Make (PyInt 31) (PyStr "N") (PyFloat NaN)
                             (PyInt 4649776) (PyStr "U")))
                  true false UTMUPSError (PyInt 31) (PyStr "N") (PyFloat NaN)
                  (PyInt 4649776) (PyStr "U") 31 "U" "N" eq_refl eq_refl eq_refl)).
  left. reflexivity.
Defined.

(** The witness of X4: the error of a zone that cannot be read is
    the one of the normalization. *)
Lemma raised_error_origin_witness :
  let x := mkExn _ValueError []
             [("zone", Val (PyStr "x")); ("band", Val (PyStr "U"));
              ("hemipole", Val (PyStr "N"))] in
  exn_class x = UTMUPSError
  \/ (exists zone band hemi, to3zBhp_model zone band hemi = Raise x)
  \/ exn_class x = OverflowError.
Proof.
  apply (raised_error_origin float_of_decimal to3zBhp_model Bands_model
           (Tuple5 (Tup5.Make (PyStr "x") (PyStr "N") (PyInt 500000) (PyInt 0)
                      (PyStr "U")))
           true false UTMUPSError).
  reflexivity.
Defined.

(** The witness of X5: the UPS South coordinate with the northing
    3,200,001. *)
Lemma northing_error_after_easting_witness :
  true = true
  /\ exists qe, py_float float_of_decimal (PyInt 1000000) = Ok (Fin qe)
      /\ (inject_Z (800000 - 0) <= qe <= inject_Z (3200000 + 0))%Q.
Proof.
  exact (northing_error_after_easting float_of_decimal to3zBhp_model Bands_model
           (Tuple5 (Tup5.Make (PyInt 0) (PyStr "S") (PyInt 1000000) (PyInt 3200001)
                      (PyStr "A")))
           true false UTMUPSError (PyInt 0) (PyStr "S") (PyInt 1000000)
           (PyInt 3200001) (PyStr "A") true 0 "A" "S"
           (range_error UTMUPSError _UPS_ _northing_ (PyInt 3200001) 800000 3200000)
           [Val (PyInt 3200001)] eq_refl eq_refl eq_refl eq_refl).
Defined.

(** The witness of X6: a UPS North coordinate and its mirror
    image. *)
Lemma ups_easting_northing_exchange_witness :
  utmupsValidate float_of_decimal to3zBhp_model Bands_model
    (Tuple5 (Tup5.Make (PyInt 0) (PyStr "N") (PyInt 1400000) (PyInt 2600000)
               (PyStr "Z")))
    true false UTMUPSError = Ok tt
  <-> utmupsValidate float_of_decimal to3zBhp_model Bands_model
        (Tuple5 (Tup5.Make (PyInt 0) (PyStr "N") (PyInt 2600000) (PyInt 1400000)
                   (PyStr "Z")))
        true false UTMUPSError = Ok tt.
Proof.
  exact (ups_easting_northing_exchange float_of_decimal to3zBhp_model Bands_model
           (Tup5.Make (PyInt 0) (PyStr "N") (PyInt 1400000) (PyInt 2600000)
              (PyStr "Z"))
           true false UTMUPSError 0 "Z" "N" eq_refl eq_refl).
Defined.

(** The witness of X7: a tuple without a hemisphere. *)
Lemma empty_hemisphere_as_north_witness :
  utmupsValidate float_of_decimal to3zBhp_model Bands_model
    (Tuple5 (Tup5.Make (PyInt 31) (PyStr NN) (PyInt 500000) (PyInt 4649776)
               (PyStr "U")))
    false false UTMUPSError = Ok tt.
Proof.
  apply (proj1 (empty_hemisphere_as_north float_of_decimal to3zBhp_model Bands_model
                  (Tuple5 (Tup5.Make (PyInt 31) (PyStr NN) (PyInt 500000)
                             (PyInt 4649776) (PyStr "U")))
                  false false UTMUPSError (PyInt 31) (PyStr NN) (PyInt 500000)
                  (PyInt 4649776) (PyStr "U") false 31 "U" eq_refl eq_refl) eq_refl).
  split; [unfold _UTMUPS_ZONE_MIN, _UTMUPS_ZONE_MAX; lia | reflexivity].
Defined.

(** The witness of X11: a string that neither parser accepts. *)
Lemma parseUTMUPS5_no_engine_error_witness :
  isinstance
    (mkExn UTMUPSError []
       [("strUTMUPS", Val (PyStr "61 N 448251 5411932"));
        ("txt", Val (PyStr "strUPS (61 N 448251 5411932)"))]) UTMError = false
  /\ isinstance
       (mkExn UTMUPSError []
          [("strUTMUPS", Val (PyStr "61 N 448251 5411932"));
           ("txt", Val (PyStr "strUPS (61 N 448251 5411932)"))]) UPSError = false.
Proof.
  apply (parseUTMUPS5_no_engine_error parseUTM5_model parseUPS5_model exn_str_model
           "61 N 448251 5411932" PyNone (Some Utm) (Some Ups) NN).
  reflexivity.
Defined.

(** The witness of X13: the latitude 100 under strict range
    checking. *)
Lemma utmupsZoneBand5_RangeError_of_ups_witness :
  let x := mkExn RangeError [Val (PyInt 100)]
             [("txt", Val (PyStr "outside valid range"))] in
  upsZoneBand5_model true (PyInt 100) (PyInt 0) = Raise x
  /\ (exists y, utmZoneBand5_model true (PyInt 100) (PyInt 0) false = Raise y
                /\ isinstance y RangeError = true)
  /\ calls (utmupsZoneBand5 (utmZoneBand5_model true) (upsZoneBand5_model true)
              (PyInt 100) (PyInt 0) false)
     = [Call_utmZoneBand5 (PyInt 100) (PyInt 0) false;
        Call_upsZoneBand5 (PyInt 100) (PyInt 0)].
Proof.
  apply (utmupsZoneBand5_RangeError_of_ups (utmZoneBand5_model true)
           (upsZoneBand5_model true) (PyInt 100) (PyInt 0) false);
    reflexivity.
Defined.

(** The zones of the models of the classifiers. *)
Lemma utmZoneBand5_model_zone rr a b c r :
  utmZoneBand5_model rr a b c = Ok r -> ll_zone r <> _UPS_ZONE.
Proof.
  unfold utmZoneBand5_model.
  destruct (parse_degrees rr 90 a) as [p|]; simpl; [|discriminate].
  destruct (parse_degrees rr 180 b) as [q|]; simpl; [|discriminate].
  destruct (_ && _); [|discriminate].
  intros [= <-]. cbn [ll_zone]. unfold _UPS_ZONE.
  match goal with
  | |- ?k mod 60 + 1 <> 0 => pose proof (Z.mod_pos_bound k 60)
  end.
  lia.
Qed.

Lemma upsZoneBand5_model_zone rr a b r :
  upsZoneBand5_model rr a b = Ok r -> ll_zone r = _UPS_ZONE.
Proof.
  unfold upsZoneBand5_model.
  destruct (parse_degrees rr 90 a) as [p|]; simpl; [|discriminate].
  destruct (parse_degrees rr 180 b) as [q|]; simpl; [|discriminate].
  now intros [= <-].
Qed.

(** The witness of X15: 45N 9E goes to the UTM engine. *)
Lemma toUtmUps8_engine_witness :
  toUtmUps8 (utmZoneBand5_model false) (upsZoneBand5_model false) to4lldn_model
    toUps8_model toUtm8_model
    (Degrees (PyInt 45)) (PyInt 9) PyNone true (Some Utm) (Some Ups) NN NN []
  = ([Classifier (Call_utmZoneBand5 (PyInt 45) (PyInt 9) false);
      Call_toUtm8 (inject_Z 45) (inject_Z 9) (PyStr "WGS84") true (Some Utm) NN],
     toUtm8_model (inject_Z 45) (inject_Z 9) (PyStr "WGS84") true (Some Utm) NN).
Proof.
  apply (proj2 (toUtmUps8_engine (utmZoneBand5_model false) (upsZoneBand5_model false)
                  to4lldn_model toUps8_model toUtm8_model
                  (Degrees (PyInt 45)) (PyInt 9) PyNone true (Some Utm) (Some Ups)
                  NN NN [] (PyInt 45) (PyInt 9) (PyStr "WGS84") NN
                  (mkLatLon5 32 "T" "N" (inject_Z 45) (inject_Z 9))
                  eq_refl eq_refl)).
  discriminate.
Defined.

(** The witness of X16: a latitude without a longitude. *)
Lemma toUtmUps8_failure_witness :
  snd (toUtmUps8 (utmZoneBand5_model false) (upsZoneBand5_model false) to4lldn_model
         toUps8_model toUtm8_model
         (Degrees (PyInt 45)) PyNone PyNone true (Some Utm) (Some Ups) NN NN [])
  = Raise (mkExn TypeError [Val (PyStr "lon")] []).
Proof.
  apply (toUtmUps8_failure (utmZoneBand5_model false) (upsZoneBand5_model false)
           to4lldn_model toUps8_model toUtm8_model
           (Degrees (PyInt 45)) PyNone PyNone true (Some Utm) (Some Ups) NN NN []).
  left. reflexivity.
Defined.

(** The witness of X18: 85N goes to the UPS engine after the UTM
    classifier has refused it. *)
Lemma toUtmUps8_ups_iff_fallback_witness :
  (exists a b d' f' u p n,
      In (Call_toUps8 a b d' f' u p n)
         (fst (toUtmUps8 (utmZoneBand5_model false) (upsZoneBand5_model false)
                 to4lldn_model toUps8_model toUtm8_model
                 (Degrees (PyInt 85)) (PyInt 9) PyNone true (Some Utm) (Some Ups)
                 NN NN [])))
  <-> (exists x, utmZoneBand5_model false (PyInt 85) (PyInt 9) false = Raise x
                 /\ isinstance x RangeError = true)
      /\ exists r, upsZoneBand5_model false (PyInt 85) (PyInt 9) = Ok r.
Proof.
  exact (toUtmUps8_ups_iff_fallback (utmZoneBand5_model false)
           (upsZoneBand5_model false) to4lldn_model toUps8_model toUtm8_model
           (Degrees (PyInt 85)) (PyInt 9) PyNone true (Some Utm) (Some Ups) NN NN []
           (PyInt 85) (PyInt 9) (PyStr "WGS84") NN
           (utmZoneBand5_model_zone false) (upsZoneBand5_model_zone false) eq_refl).
Defined.

(** The keyword [cmoff=False] asks for coordinates that are not
    falsed, and a pole given goes to the UPS engine. *)
Example toUtmUps8_examples :
  fst (toUtmUps8 (utmZoneBand5_model false) (upsZoneBand5_model false) to4lldn_model
         toUps8_model toUtm8_model
         (Degrees (PyInt 45)) (PyInt 9) PyNone true (Some Utm) (Some Ups) NN NN
         [("cmoff", false)])
  = [Classifier (Call_utmZoneBand5 (PyInt 45) (PyInt 9) false);
     Call_toUtm8 (inject_Z 45) (inject_Z 9) (PyStr "WGS84") false (Some Utm) NN]
  /\ fst (toUtmUps8 (utmZoneBand5_model false) (upsZoneBand5_model false)
            to4lldn_model toUps8_model toUtm8_model
            (Point (PyInt 85) (PyInt 9) (PyStr "NAD83") "top") PyNone PyNone true
            (Some Utm) (Some Ups) "S" NN [])
     = [Classifier (Call_utmZoneBand5 (PyInt 85) (PyInt 9) false);
        Classifier (Call_upsZoneBand5 (PyInt 85) (PyInt 9));
        Call_toUps8 (inject_Z 85) (inject_Z 9) (PyStr "NAD83") true (Some Ups)
          "S" "top"].
Proof. split; reflexivity. Qed.

(** C7, as worded, does not hold of every failure: when the UTM
    parser fails with an error that is no [UTMError], such as the
    [TypeError] of a class given as [Utm] that cannot be called, the
    UPS parser is not tried and the error is not raised as a
    [UTMUPSError]. *)
Lemma parseUTMUPS5_not_any_failure :
  ~ (forall (parseUTM5 parseUPS5 :
               string -> pyval -> option pyclass -> string -> result pyobj)
            (exn_str : exn -> string)
            (s : string) (datum : pyval) (U P : option pyclass) (name : string),
        let m := parseUTMUPS5 parseUTM5 parseUPS5 exn_str s datum U P name in
        (In (Call_parseUPS5 s datum P name) (calls m)
         <-> exists x, parseUTM5 s datum U name = Raise x)
        /\ (forall e, outcome m = Raise e ->
                      exists y, e = mkExn UTMUPSError []
                                      [("strUTMUPS", Val (PyStr s));
                                       ("txt", Val (PyStr (exn_str y)))])).
Proof.
  intros H.
  destruct (H (fun _ _ _ _ => Raise (mkExn TypeError [Val (PyStr "Utm")] []))
              parseUPS5_model exn_str_model
              "31 N 448251 5411932" PyNone (Some Utm) (Some Ups) NN) as [_ Hr].
  destruct (Hr _ eq_refl) as (y & Hy). discriminate Hy.
Qed.

(** The witness of C9: an instance that is not falsed, with an
    easting and a northing outside the UTM ranges, passes though the
    parameter [falsed] is set. *)
Lemma falsed_parameter_only_for_tuples_witness :
  utmupsValidate float_of_decimal to3zBhp_model Bands_model
    (UtmInst (Obj.Make (PyInt 31) (PyStr "N") (PyInt 0) (PyInt (-99999999))
                (PyStr "U") false PyNone))
    true false UTMUPSError = Ok tt.
Proof.
  exact (proj1 (proj1
           (falsed_parameter_only_for_tuples float_of_decimal to3zBhp_model
              Bands_model
              (Obj.Make (PyInt 31) (PyStr "N") (PyInt 0) (PyInt (-99999999))
                 (PyStr "U") false PyNone)
              (Tup5.Make (PyInt 31) (PyStr "N") (PyInt 0) (PyInt (-99999999))
                 (PyStr "U"))
              (Tup8.Make (PyInt 31) (PyStr "N") (PyInt 0) (PyInt (-99999999))
                 (PyStr "U") PyNone PyNone PyNone)
              true false UTMUPSError 31 "U" "N" 31 "U" "N"
              eq_refl eq_refl eq_refl eq_refl) eq_refl)).
Defined.

(** An instance that is falsed is checked though the parameter
    [falsed] is off. *)
Example falsed_attribute_checked :
  utmupsValidate float_of_decimal to3zBhp_model Bands_model
    (UtmInst (Obj.Make (PyInt 31) (PyStr "N") (PyInt 0) (PyInt 0) (PyStr "U")
                true PyNone))
    false false UTMUPSError
  = Raise (range_error UTMUPSError _UTM_ _easting_ (PyInt 0) 100000 900000).
Proof. reflexivity. Qed.
